(** * The TTS worker of macaw-openvoice: startup, warmup and shutdown

    A shallow embedding of [src/macaw/workers/tts/main.py] together with the
    two collaborators its unit tests exercise (the health endpoint and the
    engine-availability check), and the properties the design document
    states about them.

    The worker is effectful code: it calls into a backend, a gRPC server, a
    logger and the asyncio event loop.  Every such call is recorded as an
    [event]; what the outside world answers is read from an [Env]ironment.
    The part of [serve] that runs before the signal handlers are
    installed (everything up to the call of [server.start()]) is written
    in a small writer-and-error monad [io]; the part after it, where the
    shutdown tasks created by signals interleave with the main coroutine
    under the event loop, is a transition system over [loop_state]. *)

From Stdlib Require Import ZArith List String PrimFloat.
From Stdlib.Strings Require Import Byte.
From stdpp Require Import base option list gmap strings pretty.

Open Scope string_scope.
Open Scope list_scope.

(** ** Python values and exceptions *)

(** The values of an [engine_config] dictionary ([dict[str, object]], the
    result of [json.loads]).  Values whose structure the worker never
    inspects are carried with the text [str()] renders for them. *)
Inductive pyobject : Type :=
| PyNone
| PyBool (b : bool)
| PyInt (z : Z)
| PyStr (s : string)
| PyOther (rendering : string).

(** Python's [str(obj)]. *)
Definition py_str (o : pyobject) : string :=
  match o with
  | PyNone => "None"
  | PyBool true => "True"
  | PyBool false => "False"
  | PyInt z => pretty z
  | PyStr s => s
  | PyOther r => r
  end.

(** [d.get(key, default)] on a dictionary. *)
Definition dict_get (d : gmap string pyobject) (key : string)
    (dflt : pyobject) : pyobject :=
  match d !! key with
  | Some v => v
  | None => dflt
  end.

(** Python's exception hierarchy, as far as the worker distinguishes it:
    [KeyboardInterrupt], [SystemExit] and [asyncio.CancelledError] derive
    from [BaseException] only; everything an [except Exception] clause
    catches is an [Exception] with its class name and message. *)
Inductive BaseException : Type :=
| KeyboardInterrupt
| SystemExit (code : Z)
| CancelledError
| Exception (cls : string) (msg : string).

Definition ValueError (msg : string) : BaseException :=
  Exception "ValueError" msg.

(** [isinstance(e, Exception)]. *)
Definition isinstance_Exception (e : BaseException) : bool :=
  match e with
  | Exception _ _ => true
  | _ => false
  end.

(** [str(exc)] for an exception raised with a single message argument. *)
Definition exc_str (e : BaseException) : string :=
  match e with
  | Exception _ msg => msg
  | SystemExit code => pretty code
  | KeyboardInterrupt | CancelledError => ""
  end.

(** ** Events *)

Inductive TTSBackend : Type :=
| KokoroBackend
| Qwen3TTSBackend.

Inductive signum : Type :=
| SIGTERM
| SIGINT.

Inductive level : Type :=
| Info
| Warning.

(** A keyword argument of a structured log call. *)
Inductive logval : Type :=
| VStr (s : string)
| VInt (z : Z)
| VFloat (f : float).

Definition bytes : Type := list byte.

(** Every call the worker makes to something outside itself. *)
Inductive event : Type :=
| ConfigureLogging
| Log (lv : level) (name : string) (fields : list (string * logval))
| BackendLoad (b : TTSBackend) (model_path : string)
              (engine_config : gmap string pyobject)
| BackendSynthesize (b : TTSBackend) (text : string)
| StreamAnext
| BackendUnload (b : TTSBackend)
| NewServicer (b : TTSBackend) (model_name : string) (engine : string)
| NewServer
| AddServicerToServer
| AddInsecurePort (listen_addr : string)
| AddSignalHandler (sig : signum)
| ServerStart
| ServerStop (grace : float)
| ServerWaitForTermination.

(** ** The [io] monad: a trace of events and a result or a raised exception *)

Inductive outcome (A : Type) : Type :=
| Return (a : A)
| Raise (e : BaseException).

Arguments Return {A} a.
Arguments Raise {A} e.

Definition io (A : Type) : Type := (list event * outcome A)%type.

Definition io_ret {A : Type} (a : A) : io A := ([], Return a).

Definition io_bind {A B : Type} (f : A -> io B) (m : io A) : io B :=
  match m with
  | (tr, Return a) => let '(tr', r) := f a in (tr ++ tr', r)
  | (tr, Raise e) => (tr, Raise e)
  end.

#[global] Instance io_mret : MRet io := @io_ret.
#[global] Instance io_mbind : MBind io := @io_bind.

Definition emit (e : event) : io unit := ([e], Return tt).

Definition raise {A : Type} (e : BaseException) : io A := ([], Raise e).

(** [await call], where the awaited call answers [r]. *)
Definition await {A : Type} (call : event) (r : outcome A) : io A :=
  ([call], r).

Definition log (lv : level) (name : string)
    (fields : list (string * logval)) : io unit :=
  emit (Log lv name fields).

(** [try: body except Exception as exc: handler(exc)].  Only instances of
    [Exception] are caught; the others propagate. *)
Definition try_except_Exception {A : Type} (body : io A)
    (handler : BaseException -> io A) : io A :=
  match body with
  | (tr, Raise e) =>
      if isinstance_Exception e
      then let '(tr', r) := handler e in (tr ++ tr', r)
      else (tr, Raise e)
  | (tr, Return a) => (tr, Return a)
  end.

(** [try: body except KeyboardInterrupt: handler]. *)
Definition try_except_KeyboardInterrupt {A : Type} (body : io A)
    (handler : io A) : io A :=
  match body with
  | (tr, Raise KeyboardInterrupt) =>
      let '(tr', r) := handler in (tr ++ tr', r)
  | other => other
  end.

(** ** Asynchronous generators *)

(** What an async generator does each time [__anext__] is awaited: it ends,
    raises, or yields a chunk and goes on.  The sequence is finite. *)
Inductive stream : Type :=
| SEnd
| SRaise (e : BaseException)
| SChunk (c : bytes) (rest : stream).

Inductive loop_ctl : Type :=
| Break
| Continue.

(** [async for c in s: body(c)], where the body says whether it leaves the
    loop by [break]. *)
Fixpoint async_for (s : stream) (body : bytes -> io loop_ctl) : io unit :=
  io_bind (fun _ =>
    match s with
    | SEnd => io_ret tt
    | SRaise e => raise e
    | SChunk c rest =>
        io_bind (fun ctl =>
          match ctl with
          | Break => io_ret tt
          | Continue => async_for rest body
          end) (body c)
    end) (emit StreamAnext).

(** ** The environment *)

(** The [argparse.Namespace] that [parse_args] builds: [--port] (an int,
    default 50052), [--engine] (default "kokoro"), [--model-path]
    (required) and [--engine-config] (a JSON string, default "{}"). *)
Record Namespace : Type := {
  ns_port : Z;
  ns_engine : string;
  ns_model_path : string;
  ns_engine_config : string
}.

(** What the collaborators answer.  The backends ([KokoroBackend],
    [Qwen3TTSBackend]), the gRPC server and [argparse]/[json] are outside
    the worker's source; the worker's behaviour is stated for every way
    they may answer. *)
Record Env : Type := {
  backend_load :
    TTSBackend -> string -> gmap string pyobject -> outcome unit;
  backend_synthesize : TTSBackend -> string -> stream;
  backend_unload : TTSBackend -> outcome unit;
  server_start : outcome unit;
  server_stop : float -> outcome unit;
  argparse : list string -> outcome Namespace;
  json_loads : string -> outcome (gmap string pyobject)
}.

(** ** [main.py] *)

Definition STOP_GRACE_PERIOD : float := 5.0%float.

(** [_create_backend(engine)] *)
Definition _create_backend (engine : string) : io TTSBackend :=
  if String.eqb engine "kokoro" then mret KokoroBackend
  else if String.eqb engine "qwen3-tts" then mret Qwen3TTSBackend
  else
    let msg := "Engine TTS nao suportada: " +:+ engine in
    raise (ValueError msg).

(** [_warmup_backend(backend)] *)
Definition _warmup_backend (env : Env) (backend : TTSBackend) : io unit :=
  try_except_Exception
    (emit (BackendSynthesize backend "warmup") ;;
     async_for (backend_synthesize env backend "warmup")
               (fun _ => mret Break) ;;
     log Info "warmup_complete" [])
    (fun exc => log Warning "warmup_failed" [("error", VStr (exc_str exc))]).

(** The body of [serve] up to and including the call [server.start()]:
    from here on the coroutine only awaits, and the signal handlers are
    installed, so the rest runs under the event loop (see [step]). *)
Definition serve_startup (env : Env) (port : Z) (engine : string)
    (model_path : string) (engine_config : gmap string pyobject)
    : io TTSBackend :=
  backend ← _create_backend engine;
  log Info "loading_model"
      [("engine", VStr engine); ("model_path", VStr model_path)] ;;
  await (BackendLoad backend model_path engine_config)
        (backend_load env backend model_path engine_config) ;;
  log Info "model_loaded" [("engine", VStr engine)] ;;
  _warmup_backend env backend ;;
  let model_name :=
    py_str (dict_get engine_config "model_name" (PyStr "unknown")) in
  emit (NewServicer backend model_name engine) ;;
  emit NewServer ;;
  emit AddServicerToServer ;;
  let listen_addr := "[::]:" +:+ pretty port in
  emit (AddInsecurePort listen_addr) ;;
  emit (AddSignalHandler SIGTERM) ;;
  emit (AddSignalHandler SIGINT) ;;
  emit ServerStart ;;
  mret backend.

(** ** [serve] under the event loop *)

(** Where a task created by [asyncio.ensure_future(_shutdown())] stands. *)
Inductive task_pc : Type :=
| TaskPending
| TaskAwaitStop
| TaskAwaitUnload
| TaskDone
| TaskFailed (e : BaseException)
| TaskCancelled.

(** Where the main coroutine [serve] stands. *)
Inductive main_pc : Type :=
| MainAwaitStart
| MainAwaitTermination
| MainReturned
| MainRaised (e : BaseException).

(** [trace] is everything done so far; [shutting_down] and [shutdown_task]
    are the two [nonlocal] variables of [serve]; [tasks] are the shutdown
    tasks created so far, in creation order; [server_stopped] says whether
    the gRPC server has finished stopping; [loop_closed] says whether
    [asyncio.run] has cancelled what was left and closed the loop. *)
Record loop_state : Type := {
  trace : list event;
  shutting_down : bool;
  shutdown_task : option nat;
  tasks : list task_pc;
  server_stopped : bool;
  serve_pc : main_pc;
  loop_closed : bool
}.

(** What the event loop may do next. *)
Inductive label : Type :=
| Signal (sig : signum)
| RunTask (i : nat)
| ServerStopped
| ResumeMain
| CancelTasks.

Definition init_loop (tr : list event) : loop_state :=
  {| trace := tr; shutting_down := false; shutdown_task := None;
     tasks := []; server_stopped := false; serve_pc := MainAwaitStart;
     loop_closed := false |}.

Definition emit_in (evs : list event) (s : loop_state) : loop_state :=
  {| trace := trace s ++ evs; shutting_down := shutting_down s;
     shutdown_task := shutdown_task s; tasks := tasks s;
     server_stopped := server_stopped s; serve_pc := serve_pc s;
     loop_closed := loop_closed s |}.

Definition set_task (i : nat) (pc : task_pc) (s : loop_state) : loop_state :=
  {| trace := trace s; shutting_down := shutting_down s;
     shutdown_task := shutdown_task s; tasks := <[i := pc]> (tasks s);
     server_stopped := server_stopped s; serve_pc := serve_pc s;
     loop_closed := loop_closed s |}.

Definition set_shutting_down (s : loop_state) : loop_state :=
  {| trace := trace s; shutting_down := true;
     shutdown_task := shutdown_task s; tasks := tasks s;
     server_stopped := server_stopped s; serve_pc := serve_pc s;
     loop_closed := loop_closed s |}.

Definition set_server_stopped (s : loop_state) : loop_state :=
  {| trace := trace s; shutting_down := shutting_down s;
     shutdown_task := shutdown_task s; tasks := tasks s;
     server_stopped := true; serve_pc := serve_pc s;
     loop_closed := loop_closed s |}.

Definition set_main (pc : main_pc) (s : loop_state) : loop_state :=
  {| trace := trace s; shutting_down := shutting_down s;
     shutdown_task := shutdown_task s; tasks := tasks s;
     server_stopped := server_stopped s; serve_pc := pc;
     loop_closed := loop_closed s |}.

Definition running (s : loop_state) : bool :=
  match serve_pc s with
  | MainAwaitStart | MainAwaitTermination => true
  | MainReturned | MainRaised _ => false
  end.

(** Once the main coroutine has finished, [asyncio.run] cancels every
    task that is not done yet and closes the loop. *)
Definition cancel_task (pc : task_pc) : task_pc :=
  match pc with
  | TaskPending | TaskAwaitStop | TaskAwaitUnload => TaskCancelled
  | finished => finished
  end.

Definition cancel_all_tasks (s : loop_state) : loop_state :=
  {| trace := trace s; shutting_down := shutting_down s;
     shutdown_task := shutdown_task s;
     tasks := cancel_task <$> tasks s;
     server_stopped := server_stopped s; serve_pc := serve_pc s;
     loop_closed := true |}.

(** What the event loop does with an exception that leaves a coroutine it
    runs ([asyncio.Task.__step]): it stores the exception in the task, and
    a [KeyboardInterrupt] or a [SystemExit] it raises again, out of the
    loop, so that [asyncio.run] ends with it. *)
Definition reraised_by_loop (e : BaseException) : bool :=
  match e with
  | KeyboardInterrupt | SystemExit _ => true
  | CancelledError | Exception _ _ => false
  end.

(** The exception that stops the event loop at the step [l] that led to
    [s'], if that step ended a coroutine with one the loop raises again. *)
Definition interrupted_by (l : label) (s' : loop_state)
    : option BaseException :=
  match l with
  | RunTask i =>
      match tasks s' !! i with
      | Some (TaskFailed e) => if reraised_by_loop e then Some e else None
      | _ => None
      end
  | ResumeMain =>
      match serve_pc s' with
      | MainRaised e => if reraised_by_loop e then Some e else None
      | _ => None
      end
  | _ => None
  end.

Section EventLoop.

Variable env : Env.
Variables (port : Z) (engine : string) (backend : TTSBackend).

(** [_signal_handler()]: a new task running [_shutdown()] is created and
    [shutdown_task] is rebound to it. *)
Definition _signal_handler (s : loop_state) : loop_state :=
  {| trace := trace s; shutting_down := shutting_down s;
     shutdown_task := Some (length (tasks s));
     tasks := tasks s ++ [TaskPending];
     server_stopped := server_stopped s; serve_pc := serve_pc s;
     loop_closed := loop_closed s |}.

(** [_shutdown()], resumed as task [i]: it runs from where it stands to
    its next [await] (or to its end).  [None] when the task cannot run:
    it is finished, or what it awaits has not completed.  Nothing in
    [_shutdown] handles an exception: whatever [server.stop] or
    [backend.unload] raises ends the task, and [TaskFailed e] records the
    exception it ended with.  What the event loop makes of that exception
    is said by [reraised_by_loop] and [run_to_close]. *)
Definition _shutdown (i : nat) (s : loop_state) : option loop_state :=
  match tasks s !! i with
  | Some TaskPending =>
      if shutting_down s then Some (set_task i TaskDone s)
      else
        Some (set_task i TaskAwaitStop
               (emit_in [Log Info "shutdown_start"
                             [("grace_period", VFloat STOP_GRACE_PERIOD)];
                         ServerStop STOP_GRACE_PERIOD]
                        (set_shutting_down s)))
  | Some TaskAwaitStop =>
      match server_stop env STOP_GRACE_PERIOD with
      | Raise e => Some (set_task i (TaskFailed e) s)
      | Return _ =>
          if server_stopped s
          then Some (set_task i TaskAwaitUnload
                      (emit_in [BackendUnload backend] s))
          else None
      end
  | Some TaskAwaitUnload =>
      match backend_unload env backend with
      | Raise e => Some (set_task i (TaskFailed e) s)
      | Return _ =>
          Some (set_task i TaskDone
                 (emit_in [Log Info "shutdown_complete" []] s))
      end
  | _ => None
  end.

(** The rest of [serve]: [await server.start()], the [worker_started]
    record, [await server.wait_for_termination()].  The latter returns
    once the server has stopped. *)
Definition serve_resume (s : loop_state) : option loop_state :=
  match serve_pc s with
  | MainAwaitStart =>
      match server_start env with
      | Raise e => Some (set_main (MainRaised e) s)
      | Return _ =>
          Some (set_main MainAwaitTermination
                 (emit_in [Log Info "worker_started"
                               [("port", VInt port);
                                ("engine", VStr engine)];
                           ServerWaitForTermination] s))
      end
  | MainAwaitTermination =>
      if server_stopped s then Some (set_main MainReturned s) else None
  | _ => None
  end.

(** One step of the event loop.  Signals are handled and tasks run as
    long as the loop is open; the server finishes stopping only when
    [server.stop] was called and does not fail; the loop is closed once
    the main coroutine has finished. *)
Definition step (l : label) (s : loop_state) : option loop_state :=
  if loop_closed s then None
  else
    match l with
    | Signal _ => Some (_signal_handler s)
    | RunTask i => _shutdown i s
    | ServerStopped =>
        match server_stop env STOP_GRACE_PERIOD with
        | Return _ =>
            if shutting_down s && negb (server_stopped s)
            then Some (set_server_stopped s) else None
        | Raise _ => None
        end
    | ResumeMain => serve_resume s
    | CancelTasks => if running s then None else Some (cancel_all_tasks s)
    end.

(** The state after the steps of [sched], one after the other, whatever
    they end with: every state [run_to_close] goes through is one that
    [run] reaches. *)
Fixpoint run (sched : list label) (s : loop_state) : option loop_state :=
  match sched with
  | [] => Some s
  | l :: sched' =>
      match step l s with
      | Some s' => run sched' s'
      | None => None
      end
  end.

(** The event loop as [asyncio.run] drives it, to its end.  It follows
    the schedule like [run], with two ways to end.  Either the main
    coroutine finishes and the loop is closed ([CancelTasks]): the result
    is what [serve] returned or raised.  Or a step ends a coroutine with
    a [KeyboardInterrupt] or a [SystemExit]: the loop stops right there,
    [asyncio.run] cancels what is left, closes the loop and raises that
    exception, so the schedule has no further step.  Cancelling runs no
    code of the worker ([serve] and [_shutdown] have no handler), so the
    trace stays as the last step left it. *)
Fixpoint run_to_close (sched : list label) (s : loop_state)
    : option (io unit) :=
  match sched with
  | [] =>
      if loop_closed s then
        match serve_pc s with
        | MainReturned => Some (trace s, Return tt)
        | MainRaised e => Some (trace s, Raise e)
        | _ => None
        end
      else None
  | l :: sched' =>
      match step l s with
      | Some s' =>
          match interrupted_by l s' with
          | Some e =>
              match sched' with
              | [] => Some (trace s', Raise e)
              | _ => None
              end
          | None => run_to_close sched' s'
          end
      | None => None
      end
  end.

End EventLoop.

(** [asyncio.run(serve(port, engine, model_path, engine_config))] under the
    schedule [sched].  [None] when [sched] is not a run of the event loop,
    or does not run it to its end. *)
Definition asyncio_run_serve (env : Env) (port : Z) (engine : string)
    (model_path : string) (engine_config : gmap string pyobject)
    (sched : list label) : option (io unit) :=
  match serve_startup env port engine model_path engine_config with
  | (tr, Raise e) =>
      match sched with
      | [] => Some (tr, Raise e)
      | _ => None
      end
  | (tr, Return backend) =>
      run_to_close env port engine backend sched (init_loop tr)
  end.

(** [parse_args(argv)] *)
Definition parse_args (env : Env) (argv : list string) : outcome Namespace :=
  argparse env argv.

Definition sys_exit {A : Type} (code : Z) : io A := raise (SystemExit code).

(** [main(argv)] *)
Definition main (env : Env) (argv : list string) (sched : list label)
    : option (io unit) :=
  match parse_args env argv with
  | Raise e => Some ([ConfigureLogging], Raise e)
  | Return args =>
      match json_loads env (ns_engine_config args) with
      | Raise e => Some ([ConfigureLogging], Raise e)
      | Return engine_config =>
          match asyncio_run_serve env (ns_port args) (ns_engine args)
                  (ns_model_path args) engine_config sched with
          | Some served =>
              Some (emit ConfigureLogging ;;
                    try_except_KeyboardInterrupt served
                      (log Info "worker_interrupted" [] ;; sys_exit 0))
          | None => None
          end
      end
  end.

(** The status the interpreter exits with.  The code of a [SystemExit]
    is read as a C [long] (64 bits) and the system keeps its low 8 bits; a
    code that does not fit exits with 255. *)
Definition exit_status (r : outcome unit) : Z :=
  match r with
  | Return _ => 0
  | Raise (SystemExit code) =>
      if (- 2 ^ 63 <=? code)%Z && (code <? 2 ^ 63)%Z
      then (code mod 256)%Z else 255
  | Raise KeyboardInterrupt => 130
  | Raise _ => 1
  end.

(** ** The health endpoint *)

Inductive worker_state : Type :=
| Starting
| Ready
| Stopping
| Stopped
| Crashed.

(** The dictionary [worker_manager.worker_summary()] returns, as the unit
    tests of the health endpoint build it. *)
Record worker_summary : Type := {
  total : nat;
  ready : nat;
  starting : nat;
  crashed : nat
}.

Inductive health_status : Type :=
| ok
| loading
| degraded.

Record health_response : Type := {
  status : health_status;
  workers_ready : nat;
  workers_total : nat
}.

Definition is_state (want : worker_state) (w : worker_state) : bool :=
  match want, w with
  | Starting, Starting | Ready, Ready | Stopping, Stopping
  | Stopped, Stopped | Crashed, Crashed => true
  | _, _ => false
  end.

Definition count_state (want : worker_state) (snapshot : list worker_state)
    : nat :=
  length (List.filter (is_state want) snapshot).

(** Modelled from the spec: the worker manager's [worker_summary] is not
    among the sources; section 4.4 of the design takes "a snapshot of all
    WorkerHandles' states and counts", and the tests of the health
    endpoint fix the four counts it carries. *)
Definition summarize (snapshot : list worker_state) : worker_summary :=
  {| total := length snapshot;
     ready := count_state Ready snapshot;
     starting := count_state Starting snapshot;
     crashed := count_state Crashed snapshot |}.

(** Modelled from the spec: the [/health] handler of [macaw.server.app] is
    not among the sources.  Section 4.4: [degraded] when at least one
    worker is crashed, taking precedence over [loading]; [loading] when at
    least one worker is starting and none is crashed; [ok] otherwise (all
    workers ready, or no workers); the ready and total counts are
    reported alongside. *)
Definition health (summary : worker_summary) : health_response :=
  {| status :=
       if (0 <? crashed summary)%nat then degraded
       else if (0 <? starting summary)%nat then loading
       else ok;
     workers_ready := ready summary;
     workers_total := total summary |}.

(** ** Engine availability *)

(** Modelled from the spec: [macaw.engines.is_engine_available] is not
    among the sources; this follows what its unit tests document.  An
    engine that is not a key of [ENGINE_PACKAGE] passes through as
    available; a known engine is available when
    [importlib.util.find_spec] finds its package.  [ENGINE_PACKAGE] and
    [find_spec] are taken as given. *)
Definition is_engine_available (ENGINE_PACKAGE : gmap string string)
    (find_spec : string -> option string) (engine : string) : bool :=
  match ENGINE_PACKAGE !! engine with
  | None => true
  | Some package =>
      match find_spec package with
      | Some _ => true
      | None => false
      end
  end.

(** ** Observations on traces and states *)

Definition is_load (e : event) : bool :=
  match e with BackendLoad _ _ _ => true | _ => false end.

Definition is_synthesize (e : event) : bool :=
  match e with BackendSynthesize _ _ => true | _ => false end.

Definition is_anext (e : event) : bool :=
  match e with StreamAnext => true | _ => false end.

Definition is_server_start (e : event) : bool :=
  match e with ServerStart => true | _ => false end.

Definition is_server_stop (e : event) : bool :=
  match e with ServerStop _ => true | _ => false end.

Definition is_unload (e : event) : bool :=
  match e with BackendUnload _ => true | _ => false end.

(** The calls that acquire something from the process or the system: the
    model load, the servicer and server objects, the listening port, the
    signal handlers and the server start. *)
Definition is_acquisition (e : event) : bool :=
  match e with
  | BackendLoad _ _ _ | NewServicer _ _ _ | NewServer | AddServicerToServer
  | AddInsecurePort _ | AddSignalHandler _ | ServerStart => true
  | _ => false
  end.

(** The log records of level [Warning], and the [shutdown_complete]
    record. *)
Definition is_warning (e : event) : bool :=
  match e with Log Warning _ _ => true | _ => false end.


Definition count (p : event -> bool) (tr : list event) : nat :=
  length (List.filter p tr).

(** The two steps of the shutdown sequence, in the order the trace has
    them. *)
Definition shutdown_calls (tr : list event) : list event :=
  List.filter (fun e => is_server_stop e || is_unload e) tr.

(** Every event satisfying [q] comes after one satisfying [p]; [seen]
    says whether a [p] has been met already. *)
Fixpoint preceded_by (p q : event -> bool) (seen : bool) (tr : list event)
    : bool :=
  match tr with
  | [] => true
  | e :: tr' =>
      (if q e then seen else true) && preceded_by p q (seen || p e) tr'
  end.

Definition no_task (pc : task_pc) (l : list task_pc) : Prop :=
  forall i, l !! i <> Some pc.

Definition at_most_one_task (pc : task_pc) (l : list task_pc) : Prop :=
  forall i j, l !! i = Some pc -> l !! j = Some pc -> i = j.

(** The three stages a worker can be in with respect to shutdown: nothing
    requested; [server.stop] called and at most one task waiting for it;
    [backend.unload] called, after the server has stopped, and at most one
    task waiting for it. *)
Definition shutdown_inv (backend : TTSBackend) (s : loop_state) : Prop :=
  (shutdown_calls (trace s) = [] /\ shutting_down s = false /\
   no_task TaskAwaitStop (tasks s) /\ no_task TaskAwaitUnload (tasks s))
  \/
  (shutdown_calls (trace s) = [ServerStop STOP_GRACE_PERIOD] /\
   shutting_down s = true /\
   at_most_one_task TaskAwaitStop (tasks s) /\
   no_task TaskAwaitUnload (tasks s))
  \/
  (shutdown_calls (trace s) =
     [ServerStop STOP_GRACE_PERIOD; BackendUnload backend] /\
   shutting_down s = true /\ server_stopped s = true /\
   no_task TaskAwaitStop (tasks s) /\
   at_most_one_task TaskAwaitUnload (tasks s)).

(** The server stops only on request, and [serve] returns only once it
    has stopped. *)
Definition termination_inv (s : loop_state) : Prop :=
  (server_stopped s = true -> shutting_down s = true) /\
  (serve_pc s = MainReturned -> server_stopped s = true).

(** What the event loop may add to the trace: the records and calls of
    [_shutdown] and of the end of [serve]; [shutdown_complete] only when
    [backend.unload] returns. *)
Definition loop_event (env : Env) (port : Z) (engine : string)
    (backend : TTSBackend) (e : event) : Prop :=
  e = Log Info "shutdown_start" [("grace_period", VFloat STOP_GRACE_PERIOD)]
  \/ e = ServerStop STOP_GRACE_PERIOD
  \/ e = BackendUnload backend
  \/ (e = Log Info "shutdown_complete" [] /\
      backend_unload env backend = Return tt)
  \/ e = Log Info "worker_started"
           [("port", VInt port); ("engine", VStr engine)]
  \/ e = ServerWaitForTermination.

(** ** Sample environments *)

Definition sample_args : Namespace :=
  {| ns_port := 50052; ns_engine := "kokoro";
     ns_model_path := "/models/kokoro-v1"; ns_engine_config := "{}" |}.

(** Every collaborator answers without failing; synthesis yields one
    empty chunk and ends. *)
Definition quiet_env : Env :=
  {| backend_load := fun _ _ _ => Return tt;
     backend_synthesize := fun _ _ => SChunk [] SEnd;
     backend_unload := fun _ => Return tt;
     server_start := Return tt;
     server_stop := fun _ => Return tt;
     argparse := fun _ => Return sample_args;
     json_loads := fun _ => Return ∅ |}.

(** As [quiet_env], but synthesis fails at once. *)
Definition failing_warmup_env : Env :=
  {| backend_load := fun _ _ _ => Return tt;
     backend_synthesize :=
       fun _ _ => SRaise (Exception "RuntimeError" "no device");
     backend_unload := fun _ => Return tt;
     server_start := Return tt;
     server_stop := fun _ => Return tt;
     argparse := fun _ => Return sample_args;
     json_loads := fun _ => Return ∅ |}.


(** As [quiet_env], but loading the model is interrupted from the
    keyboard. *)
Definition interrupted_env : Env :=
  {| backend_load := fun _ _ _ => Raise KeyboardInterrupt;
     backend_synthesize := fun _ _ => SChunk [] SEnd;
     backend_unload := fun _ => Return tt;
     server_start := Return tt;
     server_stop := fun _ => Return tt;
     argparse := fun _ => Return sample_args;
     json_loads := fun _ => Return ∅ |}.

(** ** Further observations *)

Definition is_signal_handler (e : event) : bool :=
  match e with AddSignalHandler _ => true | _ => false end.

Definition is_port (e : event) : bool :=
  match e with AddInsecurePort _ => true | _ => false end.

Definition is_new_servicer (e : event) : bool :=
  match e with NewServicer _ _ _ => true | _ => false end.

Definition is_log (e : event) : bool :=
  match e with Log _ _ _ => true | _ => false end.

Definition is_log_named (name : string) (e : event) : bool :=
  match e with
  | Log _ n _ => String.eqb n name
  | _ => false
  end.

Definition is_signal (l : label) : bool :=
  match l with Signal _ => true | _ => false end.

Definition count_signals (sched : list label) : nat :=
  length (List.filter is_signal sched).

(** The calls and the log records of [_shutdown], in the order the trace
    has them. *)
Definition is_shutdown_event (e : event) : bool :=
  is_server_stop e || is_unload e
  || is_log_named "shutdown_start" e || is_log_named "shutdown_complete" e.

Definition shutdown_events (tr : list event) : list event :=
  List.filter is_shutdown_event tr.

Definition shutdown_start_record : event :=
  Log Info "shutdown_start" [("grace_period", VFloat STOP_GRACE_PERIOD)].

(** How far [_shutdown] has come, records included: nothing yet; the
    start record and [server.stop]; then [backend.unload], which needs
    [server.stop] to have returned; then the completion record, which
    needs [backend.unload] to have returned and leaves no task waiting. *)
Definition shutdown_log_inv (env : Env) (backend : TTSBackend)
    (s : loop_state) : Prop :=
  (shutdown_events (trace s) = [] /\ shutting_down s = false /\
   no_task TaskAwaitStop (tasks s) /\ no_task TaskAwaitUnload (tasks s))
  \/
  (shutdown_events (trace s)
     = [shutdown_start_record; ServerStop STOP_GRACE_PERIOD] /\
   shutting_down s = true /\
   at_most_one_task TaskAwaitStop (tasks s) /\
   no_task TaskAwaitUnload (tasks s))
  \/
  (shutdown_events (trace s)
     = [shutdown_start_record; ServerStop STOP_GRACE_PERIOD;
        BackendUnload backend] /\
   shutting_down s = true /\
   server_stop env STOP_GRACE_PERIOD = Return tt /\
   no_task TaskAwaitStop (tasks s) /\
   at_most_one_task TaskAwaitUnload (tasks s))
  \/
  (shutdown_events (trace s)
     = [shutdown_start_record; ServerStop STOP_GRACE_PERIOD;
        BackendUnload backend; Log Info "shutdown_complete" []] /\
   shutting_down s = true /\
   server_stop env STOP_GRACE_PERIOD = Return tt /\
   backend_unload env backend = Return tt /\
   no_task TaskAwaitStop (tasks s) /\
   no_task TaskAwaitUnload (tasks s)).

(** The bookkeeping of [_signal_handler]: [shutdown_task] is the task
    created last, and the flag is only ever set by a task. *)
Definition bookkeeping_inv (s : loop_state) : Prop :=
  shutdown_task s
    = (if Nat.eqb (length (tasks s)) 0 then None
       else Some (length (tasks s) - 1)) /\
  (shutting_down s = true -> 0 < length (tasks s)).

(** Where [serve] stands against its [worker_started] record. *)
Definition started_inv (env : Env) (s : loop_state) : Prop :=
  match serve_pc s with
  | MainAwaitStart => count (is_log_named "worker_started") (trace s) = 0
  | MainAwaitTermination | MainReturned =>
      count (is_log_named "worker_started") (trace s) = 1 /\
      server_start env = Return tt
  | MainRaised e =>
      count (is_log_named "worker_started") (trace s) = 0 /\
      server_start env = Raise e
  end.

(** The tasks that have entered the shutdown sequence and have not come
    out of it by returning or by being cancelled. *)
Definition in_sequence (pc : task_pc) : bool :=
  match pc with
  | TaskAwaitStop | TaskAwaitUnload | TaskFailed _ => true
  | TaskPending | TaskDone | TaskCancelled => false
  end.

Definition count_tasks (p : task_pc -> bool) (l : list task_pc) : nat :=
  length (List.filter p l).



(** Where failed tasks come from: a task only fails with what
    [server.stop] or [backend.unload] raised, and since only one task ever
    enters the shutdown sequence, at most one task is in it or has failed
    in it. *)
Definition failed_inv (env : Env) (backend : TTSBackend) (s : loop_state)
    : Prop :=
  (forall i e,
     tasks s !! i = Some (TaskFailed e) ->
     server_stop env STOP_GRACE_PERIOD = Raise e \/
     backend_unload env backend = Raise e) /\
  (shutting_down s = false -> count_tasks in_sequence (tasks s) = 0) /\
  count_tasks in_sequence (tasks s) <= 1.

(** As [quiet_env], but the warmup synthesis is cancelled. *)
Definition cancelled_warmup_env : Env :=
  {| backend_load := fun _ _ _ => Return tt;
     backend_synthesize := fun _ _ => SRaise CancelledError;
     backend_unload := fun _ => Return tt;
     server_start := Return tt;
     server_stop := fun _ => Return tt;
     argparse := fun _ => Return sample_args;
     json_loads := fun _ => Return ∅ |}.


(** As [quiet_env], but the warmup synthesis is interrupted from the
    keyboard. *)
Definition interrupted_warmup_env : Env :=
  {| backend_load := fun _ _ _ => Return tt;
     backend_synthesize := fun _ _ => SRaise KeyboardInterrupt;
     backend_unload := fun _ => Return tt;
     server_start := Return tt;
     server_stop := fun _ => Return tt;
     argparse := fun _ => Return sample_args;
     json_loads := fun _ => Return ∅ |}.


(** As [quiet_env], but [server.stop] fails. *)
Definition failing_stop_env : Env :=
  {| backend_load := fun _ _ _ => Return tt;
     backend_synthesize := fun _ _ => SChunk [] SEnd;
     backend_unload := fun _ => Return tt;
     server_start := Return tt;
     server_stop := fun _ => Raise (Exception "RuntimeError" "stuck");
     argparse := fun _ => Return sample_args;
     json_loads := fun _ => Return ∅ |}.

(** As [quiet_env], with a model name in the engine configuration. *)
Definition named_env : Env :=
  {| backend_load := fun _ _ _ => Return tt;
     backend_synthesize := fun _ _ => SChunk [] SEnd;
     backend_unload := fun _ => Return tt;
     server_start := Return tt;
     server_stop := fun _ => Return tt;
     argparse := fun _ => Return sample_args;
     json_loads := fun _ => Return {["model_name" := PyStr "kokoro-v1"]} |}.

(** * Properties *)

(** ** Backend selection *)

Lemma create_backend_cases (engine : string) :
  (engine = "kokoro" /\ _create_backend engine = ([], Return KokoroBackend))
  \/ (engine = "qwen3-tts" /\
      _create_backend engine = ([], Return Qwen3TTSBackend))
  \/ (engine <> "kokoro" /\ engine <> "qwen3-tts" /\
      _create_backend engine =
        ([], Raise (ValueError ("Engine TTS nao suportada: " +:+ engine)))).
Proof.
  unfold _create_backend.
  destruct (String.eqb_spec engine "kokoro") as [-> | Hk]; [now left |].
  destruct (String.eqb_spec engine "qwen3-tts") as [-> | Hq].
  - right; left; split; reflexivity.
  - right; right; repeat split; assumption.
Qed.

Lemma create_backend_trace (engine : string) (tr : list event)
    (r : outcome TTSBackend) :
  _create_backend engine = (tr, r) -> tr = [].
Proof.
  destruct (create_backend_cases engine) as [[_ H] | [[_ H] | (_ & _ & H)]];
    rewrite H; intros [= <- _]; reflexivity.
Qed.

(** C1. An engine name other than "kokoro" and "qwen3-tts" makes
    [_create_backend] raise a [ValueError] naming the engine; [serve] then
    fails with that error having done nothing at all: its trace is empty,
    so no model load was attempted and no servicer, server, port or signal
    handler was acquired. *)
Theorem unsupported_engine_fails_before_load (engine : string) :
  engine <> "kokoro" -> engine <> "qwen3-tts" ->
  let failure := ValueError ("Engine TTS nao suportada: " +:+ engine) in
  _create_backend engine = ([], Raise failure) /\
  forall env port model_path engine_config,
    serve_startup env port engine model_path engine_config
      = ([], Raise failure) /\
    count is_load
      (fst (serve_startup env port engine model_path engine_config)) = 0 /\
    count is_acquisition
      (fst (serve_startup env port engine model_path engine_config)) = 0 /\
    asyncio_run_serve env port engine model_path engine_config []
      = Some ([], Raise failure).
Proof.
  intros Hk Hq failure.
  assert (Hc : _create_backend engine = ([], Raise failure)).
  { destruct (create_backend_cases engine) as [[E _] | [[E _] | (_ & _ & H)]];
      [contradiction | contradiction | exact H]. }
  split; [exact Hc |].
  intros env port model_path engine_config.
  assert (Hs : serve_startup env port engine model_path engine_config
               = ([], Raise failure)).
  { unfold serve_startup. rewrite Hc. reflexivity. }
  unfold asyncio_run_serve. rewrite Hs. repeat split; reflexivity.
Qed.

Lemma unsupported_engine_fails_before_load_witness :
  _create_backend "unknown-engine"
    = ([], Raise (ValueError "Engine TTS nao suportada: unknown-engine")) /\
  serve_startup quiet_env 50052 "unknown-engine" "/models/x" ∅
    = ([], Raise (ValueError "Engine TTS nao suportada: unknown-engine")).
Proof.
  destruct (unsupported_engine_fails_before_load "unknown-engine")
    as [H1 H2]; [discriminate | discriminate |].
  split; [exact H1 |].
  exact (proj1 (H2 quiet_env 50052%Z "/models/x" ∅)).
Defined.

(** ** Warmup *)

(** What [_warmup_backend] does, by what the first [__anext__] of the
    synthesis stream does. *)
Lemma warmup_backend_cases (env : Env) (backend : TTSBackend) :
  _warmup_backend env backend =
    match backend_synthesize env backend "warmup" with
    | SEnd | SChunk _ _ =>
        ([BackendSynthesize backend "warmup"; StreamAnext;
          Log Info "warmup_complete" []], Return tt)
    | SRaise e =>
        if isinstance_Exception e
        then ([BackendSynthesize backend "warmup"; StreamAnext;
               Log Warning "warmup_failed" [("error", VStr (exc_str e))]],
              Return tt)
        else ([BackendSynthesize backend "warmup"; StreamAnext], Raise e)
    end.
Proof.
  unfold _warmup_backend.
  destruct (backend_synthesize env backend "warmup") as [| e | c rest];
    reflexivity.
Qed.

(** The trace of [serve] once the backend exists and the model loaded:
    the warmup sits between the load and the server set-up. *)
Lemma serve_startup_loaded (env : Env) (port : Z) (engine model_path : string)
    (engine_config : gmap string pyobject) (backend : TTSBackend) :
  _create_backend engine = ([], Return backend) ->
  backend_load env backend model_path engine_config = Return tt ->
  serve_startup env port engine model_path engine_config =
    match _warmup_backend env backend with
    | (wtr, Return _) =>
        ([Log Info "loading_model"
              [("engine", VStr engine); ("model_path", VStr model_path)];
          BackendLoad backend model_path engine_config;
          Log Info "model_loaded" [("engine", VStr engine)]]
         ++ wtr ++
         [NewServicer backend
            (py_str (dict_get engine_config "model_name" (PyStr "unknown")))
            engine;
          NewServer; AddServicerToServer;
          AddInsecurePort ("[::]:" +:+ pretty port);
          AddSignalHandler SIGTERM; AddSignalHandler SIGINT; ServerStart],
         Return backend)
    | (wtr, Raise e) =>
        ([Log Info "loading_model"
              [("engine", VStr engine); ("model_path", VStr model_path)];
          BackendLoad backend model_path engine_config;
          Log Info "model_loaded" [("engine", VStr engine)]] ++ wtr,
         Raise e)
    end.
Proof.
  intros Hc Hl. unfold serve_startup. rewrite Hc.
  cbn. rewrite Hl.
  destruct (_warmup_backend env backend) as [wtr [[] | e]]; reflexivity.
Qed.

Lemma serve_startup_load_failed (env : Env) (port : Z)
    (engine model_path : string) (engine_config : gmap string pyobject)
    (backend : TTSBackend) (e : BaseException) :
  _create_backend engine = ([], Return backend) ->
  backend_load env backend model_path engine_config = Raise e ->
  serve_startup env port engine model_path engine_config =
    ([Log Info "loading_model"
          [("engine", VStr engine); ("model_path", VStr model_path)];
      BackendLoad backend model_path engine_config], Raise e).
Proof.
  intros Hc Hl. unfold serve_startup. rewrite Hc. cbn. rewrite Hl.
  reflexivity.
Qed.

(** C2, as the code has it.  [_warmup_backend] catches [Exception], not
    everything that can be raised.  Whatever instance of [Exception] the
    warmup synthesis raises, [_warmup_backend] records it as a
    [warmup_failed] warning and returns normally; [serve] then goes on
    exactly as after a successful warmup: it sets up the server and calls
    [server.start()], and when the start completes it records
    [worker_started] and waits for termination. *)
Theorem warmup_failure_does_not_block_readiness (env : Env) (port : Z)
    (engine model_path : string) (engine_config : gmap string pyobject)
    (backend : TTSBackend) (e : BaseException) :
  _create_backend engine = ([], Return backend) ->
  backend_load env backend model_path engine_config = Return tt ->
  backend_synthesize env backend "warmup" = SRaise e ->
  isinstance_Exception e = true ->
  _warmup_backend env backend =
    ([BackendSynthesize backend "warmup"; StreamAnext;
      Log Warning "warmup_failed" [("error", VStr (exc_str e))]],
     Return tt) /\
  exists tr,
    serve_startup env port engine model_path engine_config
      = (tr, Return backend) /\
    In (Log Warning "warmup_failed" [("error", VStr (exc_str e))]) tr /\
    last tr = Some ServerStart /\
    (server_start env = Return tt ->
     exists s,
       step env port engine backend ResumeMain (init_loop tr) = Some s /\
       serve_pc s = MainAwaitTermination /\
       trace s = tr ++ [Log Info "worker_started"
                            [("port", VInt port); ("engine", VStr engine)];
                        ServerWaitForTermination]).
Proof.
  intros Hc Hl Hs He.
  assert (Hw : _warmup_backend env backend =
    ([BackendSynthesize backend "warmup"; StreamAnext;
      Log Warning "warmup_failed" [("error", VStr (exc_str e))]],
     Return tt)).
  { rewrite warmup_backend_cases, Hs, He. reflexivity. }
  split; [exact Hw |].
  eexists. split.
  - rewrite (serve_startup_loaded _ _ _ _ _ _ Hc Hl), Hw. reflexivity.
  - split; [cbn; tauto |]. split; [reflexivity |].
    intros Hstart. eexists. split.
    + unfold step, serve_resume. cbn. rewrite Hstart. reflexivity.
    + split; reflexivity.
Qed.

Lemma warmup_failure_does_not_block_readiness_witness :
  _warmup_backend failing_warmup_env KokoroBackend =
    ([BackendSynthesize KokoroBackend "warmup"; StreamAnext;
      Log Warning "warmup_failed" [("error", VStr "no device")]],
     Return tt) /\
  exists tr,
    serve_startup failing_warmup_env 50052 "kokoro" "/models/kokoro-v1" ∅
      = (tr, Return KokoroBackend) /\
    last tr = Some ServerStart.
Proof.
  destruct (warmup_failure_does_not_block_readiness failing_warmup_env
              50052%Z "kokoro" "/models/kokoro-v1" ∅ KokoroBackend
              (Exception "RuntimeError" "no device")
              eq_refl eq_refl eq_refl eq_refl)
    as [Hw [tr (Hs & _ & Hlast & _)]].
  split; [exact Hw |].
  exists tr. split; [exact Hs | exact Hlast].
Defined.

(** The claim C2 as the design states it, for every exception, fails on
    this run: the warmup synthesis is cancelled.  [CancelledError] is not
    an [Exception], so [_warmup_backend] does not catch it: it writes no
    record at all and raises, and [serve] ends with it right after the
    [__anext__] call, before any servicer, port or signal handler exists
    and without ever calling [server.start()]. *)
Lemma cancelled_warmup_blocks_readiness :
  backend_synthesize cancelled_warmup_env KokoroBackend "warmup"
    = SRaise CancelledError /\
  _warmup_backend cancelled_warmup_env KokoroBackend
    = ([BackendSynthesize KokoroBackend "warmup"; StreamAnext],
       Raise CancelledError) /\
  serve_startup cancelled_warmup_env 50052 "kokoro" "/models/kokoro-v1" ∅
    = ([Log Info "loading_model"
            [("engine", VStr "kokoro");
             ("model_path", VStr "/models/kokoro-v1")];
        BackendLoad KokoroBackend "/models/kokoro-v1" ∅;
        Log Info "model_loaded" [("engine", VStr "kokoro")];
        BackendSynthesize KokoroBackend "warmup"; StreamAnext],
       Raise CancelledError) /\
  count is_warning
    (fst (serve_startup cancelled_warmup_env 50052 "kokoro"
            "/models/kokoro-v1" ∅)) = 0 /\
  count is_server_start
    (fst (serve_startup cancelled_warmup_env 50052 "kokoro"
            "/models/kokoro-v1" ∅)) = 0 /\
  main cancelled_warmup_env [] []
    = Some ([ConfigureLogging;
             Log Info "loading_model"
                 [("engine", VStr "kokoro");
                  ("model_path", VStr "/models/kokoro-v1")];
             BackendLoad KokoroBackend "/models/kokoro-v1" ∅;
             Log Info "model_loaded" [("engine", VStr "kokoro")];
             BackendSynthesize KokoroBackend "warmup"; StreamAnext],
            Raise CancelledError).
Proof. repeat split. Qed.

(** C9. The warmup calls [synthesize] once, always with the text
    "warmup", and awaits [__anext__] once, so it consumes at most the
    first chunk.  When a chunk arrives the outcome mentions neither the
    chunk nor the rest of the stream: nothing of the output is returned
    or kept, and the result is [None]. *)
Theorem warmup_uses_fixed_text_and_discards_output (env : Env)
    (backend : TTSBackend) :
  List.filter is_synthesize (fst (_warmup_backend env backend))
    = [BackendSynthesize backend "warmup"] /\
  count is_anext (fst (_warmup_backend env backend)) = 1 /\
  (forall c rest,
     backend_synthesize env backend "warmup" = SChunk c rest ->
     _warmup_backend env backend =
       ([BackendSynthesize backend "warmup"; StreamAnext;
         Log Info "warmup_complete" []], Return tt)) /\
  (forall r, snd (_warmup_backend env backend) = Return r -> r = tt).
Proof.
  rewrite warmup_backend_cases.
  destruct (backend_synthesize env backend "warmup") as [| e | c rest];
    [| destruct (isinstance_Exception e) |];
    (split; [reflexivity |]; split; [reflexivity |]; split;
     [intros c' rest' [=]; reflexivity || idtac | intros []; reflexivity]).
Qed.

Lemma warmup_uses_fixed_text_and_discards_output_witness :
  _warmup_backend quiet_env KokoroBackend =
    ([BackendSynthesize KokoroBackend "warmup"; StreamAnext;
      Log Info "warmup_complete" []], Return tt).
Proof.
  exact (proj1 (proj2 (proj2
           (warmup_uses_fixed_text_and_discards_output
              quiet_env KokoroBackend))) [] SEnd eq_refl).
Defined.

(** In general, a loop whose body leaves at once awaits [__anext__]
    exactly once, however long the stream is. *)
Lemma async_for_break_once (s : stream) :
  count is_anext (fst (async_for s (fun _ => mret Break))) = 1.
Proof. destruct s; reflexivity. Qed.

(** ** Startup order *)

(** What [preceded_by] computes: an event satisfying [q] has one
    satisfying [p] somewhere before it. *)
Lemma preceded_by_sound (p q : event -> bool) (tr : list event) :
  forall seen,
    preceded_by p q seen tr = true ->
    forall pre x post,
      tr = pre ++ x :: post -> q x = true ->
      seen = true \/ existsb p pre = true.
Proof.
  induction tr as [| e tr IH]; intros seen H pre x post Heq Hq.
  - destruct pre; discriminate.
  - cbn in H. apply andb_prop in H as [Hhead Htail].
    destruct pre as [| e' pre]; cbn in Heq; injection Heq as <- ->.
    + rewrite Hq in Hhead. now left.
    + destruct (IH _ Htail pre x post eq_refl Hq) as [Hseen | Hpre].
      * apply orb_prop in Hseen as [-> | Hp]; [now left |].
        right. cbn. now rewrite Hp.
      * right. cbn. rewrite Hpre. apply orb_true_r.
Qed.



(** ** The entry point *)

(** C10. When [asyncio.run(serve(...))] is interrupted by a
    [KeyboardInterrupt], [main] catches it, records [worker_interrupted]
    and leaves through [sys.exit(0)]: the interpreter exits with status 0
    and the interrupt itself does not propagate. *)
Theorem keyboard_interrupt_exits_with_status_zero (env : Env)
    (argv : list string) (sched : list label) (args : Namespace)
    (engine_config : gmap string pyobject) (tr : list event) :
  parse_args env argv = Return args ->
  json_loads env (ns_engine_config args) = Return engine_config ->
  asyncio_run_serve env (ns_port args) (ns_engine args) (ns_model_path args)
    engine_config sched = Some (tr, Raise KeyboardInterrupt) ->
  exists r,
    main env argv sched
      = Some (ConfigureLogging :: tr ++ [Log Info "worker_interrupted" []],
              r) /\
    r = Raise (SystemExit 0) /\
    r <> Raise KeyboardInterrupt /\
    exit_status r = 0%Z.
Proof.
  intros Hargs Hjson Hrun.
  exists (Raise (SystemExit 0)).
  unfold main. rewrite Hargs, Hjson, Hrun.
  split; [reflexivity |]. split; [reflexivity |].
  split; [discriminate | reflexivity].
Qed.

Lemma keyboard_interrupt_exits_with_status_zero_witness :
  exists r,
    main interrupted_env [] []
      = Some ([ConfigureLogging;
               Log Info "loading_model"
                   [("engine", VStr "kokoro");
                    ("model_path", VStr "/models/kokoro-v1")];
               BackendLoad KokoroBackend "/models/kokoro-v1" ∅;
               Log Info "worker_interrupted" []], r) /\
    r = Raise (SystemExit 0) /\
    r <> Raise KeyboardInterrupt /\
    exit_status r = 0%Z.
Proof.
  exact (keyboard_interrupt_exits_with_status_zero interrupted_env [] []
           sample_args ∅ _ eq_refl eq_refl eq_refl).
Defined.

(** ** Shutdown tasks *)

Section TaskLists.

Implicit Types (l : list task_pc) (pc : task_pc).

Lemma no_task_at_most_one pc l : no_task pc l -> at_most_one_task pc l.
Proof. intros H i j Hi _. destruct (H i Hi). Qed.

Lemma no_task_insert pc pc' i l :
  no_task pc l -> pc' <> pc -> no_task pc (<[i := pc']> l).
Proof.
  intros H Hne j Hj.
  apply list_lookup_insert_Some in Hj as [(_ & E & _) | (_ & Hl)].
  - contradiction.
  - exact (H j Hl).
Qed.

Lemma no_task_enter pc i l :
  no_task pc l -> at_most_one_task pc (<[i := pc]> l).
Proof.
  intros H j k Hj Hk.
  apply list_lookup_insert_Some in Hj as [(<- & _) | (_ & Hl)];
    [| destruct (H j Hl)].
  apply list_lookup_insert_Some in Hk as [(<- & _) | (_ & Hl)];
    [reflexivity | destruct (H k Hl)].
Qed.

Lemma at_most_one_insert pc pc' i l :
  at_most_one_task pc l -> pc' <> pc ->
  at_most_one_task pc (<[i := pc']> l).
Proof.
  intros H Hne j k Hj Hk.
  apply list_lookup_insert_Some in Hj as [(_ & E & _) | (_ & Hj)];
    [contradiction |].
  apply list_lookup_insert_Some in Hk as [(_ & E & _) | (_ & Hk)];
    [contradiction |].
  exact (H j k Hj Hk).
Qed.

Lemma at_most_one_leave pc pc' i l :
  at_most_one_task pc l -> l !! i = Some pc -> pc' <> pc ->
  no_task pc (<[i := pc']> l).
Proof.
  intros H Hi Hne j Hj.
  apply list_lookup_insert_Some in Hj as [(_ & E & _) | (Hij & Hj)];
    [contradiction |].
  apply Hij. exact (H i j Hi Hj).
Qed.

Lemma no_task_snoc pc pc' l :
  no_task pc l -> pc' <> pc -> no_task pc (l ++ [pc']).
Proof.
  intros H Hne j Hj.
  apply lookup_snoc_Some in Hj as [(_ & Hl) | (_ & E)].
  - exact (H j Hl).
  - contradiction.
Qed.

Lemma at_most_one_snoc pc pc' l :
  at_most_one_task pc l -> pc' <> pc ->
  at_most_one_task pc (l ++ [pc']).
Proof.
  intros H Hne j k Hj Hk.
  apply lookup_snoc_Some in Hj as [(_ & Hj) | (_ & E)]; [| contradiction].
  apply lookup_snoc_Some in Hk as [(_ & Hk) | (_ & E)]; [| contradiction].
  exact (H j k Hj Hk).
Qed.

(** No cancelled list has a task left waiting. *)
Lemma no_task_cancelled pc l :
  cancel_task pc <> pc -> no_task pc (cancel_task <$> l).
Proof.
  intros Hpc j Hj.
  apply list_lookup_fmap_Some in Hj as (pc0 & E & _).
  apply Hpc. subst pc. destruct pc0; reflexivity.
Qed.

End TaskLists.

Lemma shutdown_calls_app (tr evs : list event) :
  shutdown_calls (tr ++ evs) = shutdown_calls tr ++ shutdown_calls evs.
Proof. apply List.filter_app. Qed.

Lemma filter_filter_weaker (p r : event -> bool) (tr : list event) :
  (forall e, p e = true -> r e = true) ->
  List.filter p (List.filter r tr) = List.filter p tr.
Proof.
  intros Hpr. induction tr as [| e tr IH]; [reflexivity |].
  cbn. destruct (r e) eqn:Hr, (p e) eqn:Hp; cbn; rewrite ?Hp, ?IH;
    try reflexivity.
  rewrite (Hpr e Hp) in Hr. discriminate.
Qed.

Lemma count_server_stop_calls (tr : list event) :
  count is_server_stop tr = count is_server_stop (shutdown_calls tr).
Proof.
  unfold count, shutdown_calls. rewrite filter_filter_weaker; [reflexivity |].
  intros e ->. reflexivity.
Qed.

Lemma count_unload_calls (tr : list event) :
  count is_unload tr = count is_unload (shutdown_calls tr).
Proof.
  unfold count, shutdown_calls. rewrite filter_filter_weaker; [reflexivity |].
  intros e ->. apply orb_true_r.
Qed.

(** Whether every [q] follows a [p] is decided by the [p]s and [q]s
    alone. *)
Lemma preceded_by_filter (p q : event -> bool) (tr : list event) :
  forall seen,
    preceded_by p q seen (List.filter (fun e => p e || q e) tr)
    = preceded_by p q seen tr.
Proof.
  induction tr as [| e tr IH]; intros seen; [reflexivity |].
  cbn. destruct (p e) eqn:Hp, (q e) eqn:Hq; cbn; rewrite ?Hp, ?Hq, IH;
    try reflexivity.
  now rewrite orb_false_r.
Qed.

(** The startup of [serve] neither stops the server nor unloads the
    backend. *)
Lemma serve_startup_no_shutdown_calls (env : Env) (port : Z)
    (engine model_path : string) (engine_config : gmap string pyobject)
    (tr : list event) (r : outcome TTSBackend) :
  serve_startup env port engine model_path engine_config = (tr, r) ->
  shutdown_calls tr = [].
Proof.
  intros H.
  assert (Hb : forall backend,
             _create_backend engine = ([], Return backend) ->
             shutdown_calls tr = []).
  { intros backend Hc.
    destruct (backend_load env backend model_path engine_config)
      as [[] | e] eqn:Hl.
    - rewrite (serve_startup_loaded _ _ _ _ _ _ Hc Hl) in H.
      rewrite warmup_backend_cases in H.
      destruct (backend_synthesize env backend "warmup") as [| e | c rest];
        [| destruct (isinstance_Exception e) |];
        injection H as <- _; reflexivity.
    - rewrite (serve_startup_load_failed _ _ _ _ _ _ _ Hc Hl) in H.
      injection H as <- _; reflexivity. }
  destruct (create_backend_cases engine)
    as [[_ Hc] | [[_ Hc] | (_ & _ & Hc)]]; eauto.
  unfold serve_startup in H. rewrite Hc in H. injection H as <- _.
  reflexivity.
Qed.

(** ** The event loop *)

Create HintDb tasks.
#[local] Hint Resolve no_task_insert no_task_enter at_most_one_insert
  at_most_one_leave no_task_snoc at_most_one_snoc no_task_cancelled
  no_task_at_most_one : tasks.
#[local] Hint Extern 1 (_ <> _) => discriminate : tasks.

Section LoopProperties.

Variable env : Env.
Variables (port : Z) (engine : string) (backend : TTSBackend).

Lemma init_loop_shutdown_inv (tr : list event) :
  shutdown_calls tr = [] -> shutdown_inv backend (init_loop tr).
Proof.
  intros H. left. repeat split; [exact H | |]; intros i Hi; discriminate.
Qed.

Ltac inv_cases H :=
  destruct H as [(Hcalls & Hsd & Hstop & Hunl)
                | [(Hcalls & Hsd & Hstop & Hunl)
                  | (Hcalls & Hsd & Hsrv & Hstop & Hunl)]].

Ltac stage_goal :=
  cbn; rewrite ?shutdown_calls_app;
  repeat match goal with
         | H : shutdown_calls _ = _ |- _ => rewrite H; clear H
         end;
  repeat split; solve [eauto with tasks].

Ltac keep_stage :=
  first [ left; stage_goal
        | right; left; stage_goal
        | right; right; stage_goal ].

Lemma step_shutdown_inv (l : label) (s s' : loop_state) :
  shutdown_inv backend s ->
  step env port engine backend l s = Some s' ->
  shutdown_inv backend s'.
Proof.
  intros Hinv Hstep. unfold step in Hstep.
  destruct (loop_closed s); [discriminate |].
  destruct l as [sig | i | | |].
  - injection Hstep as <-. inv_cases Hinv; keep_stage.
  - unfold _shutdown in Hstep.
    destruct (tasks s !! i) as [[] |] eqn:Hi; try discriminate.
    + destruct (shutting_down s) eqn:Hflag; injection Hstep as <-.
      * inv_cases Hinv; try congruence; keep_stage.
      * inv_cases Hinv; try congruence. keep_stage.
    + destruct (server_stop env STOP_GRACE_PERIOD) as [[] | e].
      * destruct (server_stopped s) eqn:Hsrv'; [| discriminate].
        injection Hstep as <-.
        inv_cases Hinv; try (destruct (Hstop i Hi)). keep_stage.
      * injection Hstep as <-.
        inv_cases Hinv; try (destruct (Hstop i Hi)); keep_stage.
    + destruct (backend_unload env backend) as [[] | e];
        injection Hstep as <-;
        inv_cases Hinv; try (destruct (Hunl i Hi)); keep_stage.
  - destruct (server_stop env STOP_GRACE_PERIOD) as [[] | e];
      [| discriminate].
    destruct (shutting_down s && negb (server_stopped s));
      [| discriminate].
    injection Hstep as <-. inv_cases Hinv; keep_stage.
  - unfold serve_resume in Hstep.
    destruct (serve_pc s); try discriminate.
    + destruct (server_start env) as [[] | e]; injection Hstep as <-;
        inv_cases Hinv; keep_stage.
    + destruct (server_stopped s); [| discriminate].
      injection Hstep as <-. inv_cases Hinv; keep_stage.
  - destruct (running s); [discriminate |].
    injection Hstep as <-. inv_cases Hinv; keep_stage.
Qed.

Lemma step_termination_inv (l : label) (s s' : loop_state) :
  termination_inv s ->
  step env port engine backend l s = Some s' ->
  termination_inv s'.
Proof.
  intros [Hstopped Hret] Hstep. unfold step in Hstep.
  destruct (loop_closed s); [discriminate |].
  destruct l as [sig | i | | |].
  - injection Hstep as <-. split; cbn; intuition congruence.
  - unfold _shutdown in Hstep.
    destruct (tasks s !! i) as [[] |]; try discriminate.
    + destruct (shutting_down s) eqn:Hflag; injection Hstep as <-;
        split; cbn; intuition congruence.
    + destruct (server_stop env STOP_GRACE_PERIOD) as [[] | e];
        [destruct (server_stopped s) eqn:E; [| discriminate] |];
        injection Hstep as <-; split; cbn; intuition congruence.
    + destruct (backend_unload env backend) as [[] | e];
        injection Hstep as <-; split; cbn; intuition congruence.
  - destruct (server_stop env STOP_GRACE_PERIOD) as [[] | e];
      [| discriminate].
    destruct (shutting_down s) eqn:Hflag; [| discriminate].
    destruct (negb (server_stopped s)); [| discriminate].
    injection Hstep as <-. split; cbn; intuition congruence.
  - unfold serve_resume in Hstep.
    destruct (serve_pc s) eqn:Hpc; try discriminate.
    + destruct (server_start env) as [[] | e]; injection Hstep as <-;
        split; cbn; intuition congruence.
    + destruct (server_stopped s) eqn:E; [| discriminate].
      injection Hstep as <-. split; cbn; intuition congruence.
  - destruct (running s); [discriminate |].
    injection Hstep as <-. split; cbn; intuition congruence.
Qed.

(** A step adds to the trace, and only events of the event loop. *)
Lemma step_trace (l : label) (s s' : loop_state) :
  step env port engine backend l s = Some s' ->
  exists evs,
    trace s' = trace s ++ evs /\
    Forall (loop_event env port engine backend) evs.
Proof.
  intros Hstep. unfold step in Hstep.
  destruct (loop_closed s); [discriminate |].
  assert (Hnil : trace s = trace s ++ []) by (symmetry; apply app_nil_r).
  destruct l as [sig | i | | |].
  - injection Hstep as <-. exists []. split; [exact Hnil | constructor].
  - unfold _shutdown in Hstep.
    destruct (tasks s !! i) as [[] |]; try discriminate.
    + destruct (shutting_down s); injection Hstep as <-.
      * exists []. split; [exact Hnil | constructor].
      * eexists. split; [reflexivity |].
        repeat constructor; unfold loop_event; tauto.
    + destruct (server_stop env STOP_GRACE_PERIOD) as [[] | e].
      * destruct (server_stopped s); [| discriminate].
        injection Hstep as <-. eexists. split; [reflexivity |].
        repeat constructor; unfold loop_event; tauto.
      * injection Hstep as <-. exists [].
        split; [exact Hnil | constructor].
    + destruct (backend_unload env backend) as [[] | e] eqn:Hu;
        injection Hstep as <-.
      * eexists. split; [reflexivity |].
        repeat constructor; unfold loop_event; tauto.
      * exists []. split; [exact Hnil | constructor].
  - destruct (server_stop env STOP_GRACE_PERIOD) as [[] | e];
      [| discriminate].
    destruct (shutting_down s && negb (server_stopped s));
      [| discriminate].
    injection Hstep as <-. exists []. split; [exact Hnil | constructor].
  - unfold serve_resume in Hstep.
    destruct (serve_pc s); try discriminate.
    + destruct (server_start env) as [[] | e]; injection Hstep as <-.
      * eexists. split; [reflexivity |].
        repeat constructor; unfold loop_event; tauto.
      * exists []. split; [exact Hnil | constructor].
    + destruct (server_stopped s); [| discriminate].
      injection Hstep as <-. exists [].
      split; [exact Hnil | constructor].
  - destruct (running s); [discriminate |].
    injection Hstep as <-. exists []. split; [exact Hnil | constructor].
Qed.

(** The three facts, along a whole run. *)
Lemma run_invariants (sched : list label) :
  forall s s',
    run env port engine backend sched s = Some s' ->
    (shutdown_inv backend s -> shutdown_inv backend s') /\
    (termination_inv s -> termination_inv s') /\
    exists evs,
      trace s' = trace s ++ evs /\
      Forall (loop_event env port engine backend) evs.
Proof.
  induction sched as [| l sched IH]; intros s s' Hrun; cbn in Hrun.
  - injection Hrun as <-. split; [tauto |]. split; [tauto |].
    exists []. split; [symmetry; apply app_nil_r | constructor].
  - destruct (step env port engine backend l s) as [s1 |] eqn:Hstep;
      [| discriminate].
    destruct (IH _ _ Hrun) as (Hsd & Hterm & evs2 & Htr2 & Hev2).
    destruct (step_trace _ _ _ Hstep) as (evs1 & Htr1 & Hev1).
    split; [| split].
    + intros H. apply Hsd. exact (step_shutdown_inv _ _ _ H Hstep).
    + intros H. apply Hterm. exact (step_termination_inv _ _ _ H Hstep).
    + exists (evs1 ++ evs2). split.
      * rewrite Htr2, Htr1. symmetry. apply app_assoc.
      * apply Forall_app. split; assumption.
Qed.

End LoopProperties.

(** ** Runs of the worker *)

(** Every state the worker reaches after a successful startup. *)
Lemma reachable_invariants (env : Env) (port : Z) (engine model_path : string)
    (engine_config : gmap string pyobject) (backend : TTSBackend)
    (tr0 : list event) (sched : list label) (s : loop_state) :
  serve_startup env port engine model_path engine_config
    = (tr0, Return backend) ->
  run env port engine backend sched (init_loop tr0) = Some s ->
  shutdown_inv backend s /\ termination_inv s /\
  exists evs,
    trace s = tr0 ++ evs /\ Forall (loop_event env port engine backend) evs.
Proof.
  intros Hstart Hrun.
  destruct (run_invariants env port engine backend sched _ _ Hrun)
    as (Hsd & Hterm & Hevs).
  split; [| split; [| exact Hevs]].
  - apply Hsd, init_loop_shutdown_inv.
    exact (serve_startup_no_shutdown_calls _ _ _ _ _ _ _ Hstart).
  - apply Hterm. split; cbn; discriminate.
Qed.

Lemma shutdown_inv_calls (backend : TTSBackend) (s : loop_state) :
  shutdown_inv backend s ->
  (shutdown_calls (trace s) = [] /\ shutting_down s = false)
  \/ (shutdown_calls (trace s) = [ServerStop STOP_GRACE_PERIOD] /\
      shutting_down s = true)
  \/ (shutdown_calls (trace s)
        = [ServerStop STOP_GRACE_PERIOD; BackendUnload backend] /\
      shutting_down s = true /\ server_stopped s = true).
Proof. unfold shutdown_inv. tauto. Qed.

Lemma in_shutdown_calls (tr : list event) (e : event) :
  In e tr -> is_server_stop e || is_unload e = true ->
  In e (shutdown_calls tr).
Proof. intros Hin He. apply List.filter_In. split; assumption. Qed.



(** ** Shutdown *)

(** C3. However many signals arrive and however the event loop
    interleaves the tasks they create, [server.stop] is called at most
    once, [backend.unload] at most once, and never before [server.stop].
    The [shutting_down] flag is set exactly when the sequence has begun; a
    signal only creates a task, and a task that starts while the flag is
    set returns at once, leaving the trace as it was. *)
Theorem shutdown_sequence_runs_at_most_once (env : Env) (port : Z)
    (engine model_path : string) (engine_config : gmap string pyobject)
    (backend : TTSBackend) (tr0 : list event) (sched : list label)
    (s : loop_state) :
  serve_startup env port engine model_path engine_config
    = (tr0, Return backend) ->
  run env port engine backend sched (init_loop tr0) = Some s ->
  count is_server_stop (trace s) <= 1 /\
  count is_unload (trace s) <= 1 /\
  preceded_by is_server_stop is_unload false (trace s) = true /\
  (shutting_down s = true <-> count is_server_stop (trace s) = 1) /\
  (forall sig,
     loop_closed s = false ->
     exists s1,
       step env port engine backend (Signal sig) s = Some s1 /\
       trace s1 = trace s /\ tasks s1 = tasks s ++ [TaskPending]) /\
  (forall i,
     loop_closed s = false -> shutting_down s = true ->
     tasks s !! i = Some TaskPending ->
     exists s1,
       step env port engine backend (RunTask i) s = Some s1 /\
       trace s1 = trace s /\ tasks s1 !! i = Some TaskDone).
Proof.
  intros Hstart Hrun.
  destruct (reachable_invariants _ _ _ _ _ _ _ _ _ Hstart Hrun)
    as (Hinv & _ & _).
  rewrite count_server_stop_calls, count_unload_calls.
  rewrite <- (preceded_by_filter is_server_stop is_unload).
  fold (shutdown_calls (trace s)).
  assert (Hshape :
    count is_server_stop (shutdown_calls (trace s)) <= 1 /\
    count is_unload (shutdown_calls (trace s)) <= 1 /\
    preceded_by is_server_stop is_unload false (shutdown_calls (trace s))
      = true /\
    (shutting_down s = true <->
     count is_server_stop (shutdown_calls (trace s)) = 1)).
  { destruct (shutdown_inv_calls _ _ Hinv)
      as [[-> ->] | [[-> ->] | (-> & -> & _)]]; cbn;
      repeat split; solve [lia | reflexivity | discriminate]. }
  destruct Hshape as (H1 & H2 & H3 & H4).
  repeat (split; [assumption |]). split.
  - intros sig Hlive. eexists. split.
    + unfold step. rewrite Hlive. reflexivity.
    + split; reflexivity.
  - intros i Hlive Hflag Hi. eexists. split.
    + unfold step, _shutdown. rewrite Hlive, Hi, Hflag. reflexivity.
    + split; [reflexivity |]. cbn.
      apply list_lookup_insert_eq. exact (lookup_lt_Some _ _ _ Hi).
Qed.

Lemma shutdown_sequence_runs_at_most_once_witness :
  exists s,
    run quiet_env 50052 "kokoro" KokoroBackend
      [ResumeMain; Signal SIGTERM; Signal SIGINT; RunTask 0; RunTask 1;
       Signal SIGTERM; ServerStopped; RunTask 2; RunTask 0; RunTask 0]
      (init_loop
         (fst (serve_startup quiet_env 50052 "kokoro" "/models/kokoro-v1"
                 ∅)))
      = Some s /\
    count is_server_stop (trace s) <= 1 /\
    count is_unload (trace s) <= 1.
Proof.
  destruct (run quiet_env 50052 "kokoro" KokoroBackend
      [ResumeMain; Signal SIGTERM; Signal SIGINT; RunTask 0; RunTask 1;
       Signal SIGTERM; ServerStopped; RunTask 2; RunTask 0; RunTask 0]
      (init_loop
         (fst (serve_startup quiet_env 50052 "kokoro" "/models/kokoro-v1"
                 ∅)))) as [s |] eqn:Hrun.
  - exists s. split; [reflexivity |].
    destruct (shutdown_sequence_runs_at_most_once quiet_env 50052%Z "kokoro"
                "/models/kokoro-v1" ∅ KokoroBackend _ _ s eq_refl Hrun)
      as (H1 & H2 & _).
    split; [exact H1 | exact H2].
  - vm_compute in Hrun. discriminate Hrun.
Defined.

(** C7, as the code has it.  [_shutdown] calls [server.stop] with the
    module constant [STOP_GRACE_PERIOD], which is 5.0 seconds whatever the
    port, engine, model path and engine configuration are; it calls
    [backend.unload] only afterwards, once the server has stopped; and
    [serve] returns, ending the process, only after the server has
    stopped. *)
Theorem shutdown_order_with_fixed_grace (env : Env) (port : Z)
    (engine model_path : string) (engine_config : gmap string pyobject)
    (backend : TTSBackend) (tr0 : list event) (sched : list label)
    (s : loop_state) :
  serve_startup env port engine model_path engine_config
    = (tr0, Return backend) ->
  run env port engine backend sched (init_loop tr0) = Some s ->
  STOP_GRACE_PERIOD = 5.0%float /\
  (shutdown_calls (trace s) = [] \/
   shutdown_calls (trace s) = [ServerStop 5.0%float] \/
   shutdown_calls (trace s)
     = [ServerStop 5.0%float; BackendUnload backend]) /\
  (forall g, In (ServerStop g) (trace s) -> g = 5.0%float) /\
  (forall b, In (BackendUnload b) (trace s) -> server_stopped s = true) /\
  (serve_pc s = MainReturned ->
   server_stopped s = true /\ In (ServerStop 5.0%float) (trace s)).
Proof.
  intros Hstart Hrun.
  destruct (reachable_invariants _ _ _ _ _ _ _ _ _ Hstart Hrun)
    as (Hinv & [Hstopped Hret] & _).
  pose proof (shutdown_inv_calls _ _ Hinv) as Hshape.
  change STOP_GRACE_PERIOD with 5.0%float in Hshape.
  split; [reflexivity |]. split; [tauto |]. split; [| split].
  - intros g Hin. apply in_shutdown_calls in Hin; [| reflexivity].
    destruct Hshape as [[Hc _] | [[Hc _] | (Hc & _)]]; rewrite Hc in Hin;
      cbn in Hin; intuition congruence.
  - intros b Hin. apply in_shutdown_calls in Hin; [| reflexivity].
    destruct Hshape as [[Hc _] | [[Hc _] | (Hc & _ & Hst)]];
      [rewrite Hc in Hin; destruct Hin
      | rewrite Hc in Hin; destruct Hin as [[=] | []]
      | exact Hst].
  - intros Hpc. pose proof (Hret Hpc) as Hst. split; [exact Hst |].
    pose proof (Hstopped Hst) as Hflag.
    assert (Hin : In (ServerStop 5.0%float) (shutdown_calls (trace s))).
    { destruct Hshape as [[_ Hf] | [[Hc _] | (Hc & _)]];
        [congruence | rewrite Hc; now left | rewrite Hc; now left]. }
    apply List.filter_In in Hin. tauto.
Qed.

Lemma shutdown_order_with_fixed_grace_witness :
  exists s,
    run quiet_env 50052 "kokoro" KokoroBackend
      [ResumeMain; Signal SIGTERM; RunTask 0; ServerStopped; RunTask 0;
       RunTask 0; ResumeMain]
      (init_loop
         (fst (serve_startup quiet_env 50052 "kokoro" "/models/kokoro-v1"
                 ∅)))
      = Some s /\
    (forall g, In (ServerStop g) (trace s) -> g = 5.0%float).
Proof.
  destruct (run quiet_env 50052 "kokoro" KokoroBackend
      [ResumeMain; Signal SIGTERM; RunTask 0; ServerStopped; RunTask 0;
       RunTask 0; ResumeMain]
      (init_loop
         (fst (serve_startup quiet_env 50052 "kokoro" "/models/kokoro-v1"
                 ∅)))) as [s |] eqn:Hrun.
  - exists s. split; [reflexivity |].
    exact (proj1 (proj2 (proj2
      (shutdown_order_with_fixed_grace quiet_env 50052%Z "kokoro"
         "/models/kokoro-v1" ∅ KokoroBackend _ _ s eq_refl Hrun)))).
  - vm_compute in Hrun. discriminate Hrun.
Defined.

(** The claim C7 as the design states it has the grace period
    configurable.  In the worker it is not: no environment, argument or
    schedule makes [server.stop] receive anything but 5.0. *)
Lemma grace_period_is_not_configurable :
  ~ exists (env : Env) (port : Z) (engine model_path : string)
      (engine_config : gmap string pyobject) (backend : TTSBackend)
      (tr0 : list event) (sched : list label) (s : loop_state) (g : float),
      serve_startup env port engine model_path engine_config
        = (tr0, Return backend) /\
      run env port engine backend sched (init_loop tr0) = Some s /\
      In (ServerStop g) (trace s) /\
      g <> 5.0%float.
Proof.
  intros (env & port & engine & model_path & engine_config & backend & tr0
          & sched & s & g & Hstart & Hrun & Hin & Hne).
  destruct (reachable_invariants _ _ _ _ _ _ _ _ _ Hstart Hrun)
    as (Hinv & _ & _).
  apply in_shutdown_calls in Hin; [| reflexivity].
  apply Hne.
  destruct (shutdown_inv_calls _ _ Hinv) as [[Hc _] | [[Hc _] | (Hc & _)]];
    rewrite Hc in Hin; cbn in Hin; unfold STOP_GRACE_PERIOD in Hin;
    intuition congruence.
Qed.

(** ** Health *)

Lemma count_state_positive (w : worker_state) (snapshot : list worker_state) :
  0 < count_state w snapshot <-> Exists (fun x => x = w) snapshot.
Proof.
  unfold count_state. induction snapshot as [| x l IH]; cbn.
  - split; [lia | intros H; inversion H].
  - rewrite Exists_cons. destruct (is_state w x) eqn:E; cbn.
    + split; [intros _ | lia]. left. destruct w, x; (discriminate || reflexivity).
    + rewrite IH. split; [tauto |]. intros [-> | H]; [| exact H].
      destruct w; discriminate.
Qed.

Lemma count_state_all_ready (snapshot : list worker_state) :
  Forall (fun x => x = Ready) snapshot ->
  count_state Ready snapshot = length snapshot /\
  count_state Starting snapshot = 0 /\
  count_state Crashed snapshot = 0.
Proof.
  unfold count_state.
  induction 1 as [| x l -> _ (IH1 & IH2 & IH3)]; cbn; [tauto |].
  rewrite IH1, IH2, IH3. tauto.
Qed.

(** C5. The health status of a snapshot: [ok] when every worker is ready,
    in particular when there is none; [loading] exactly when some worker
    is starting and none is crashed; [degraded] exactly when some worker
    is crashed, whatever the others are.  The response carries the number
    of ready workers and the total, and its status is one of the three. *)
Theorem health_of_snapshot (snapshot : list worker_state) :
  let response := health (summarize snapshot) in
  (Forall (fun w => w = Ready) snapshot -> status response = ok) /\
  (snapshot = [] -> status response = ok) /\
  (status response = loading <->
   Exists (fun w => w = Starting) snapshot /\
   ~ Exists (fun w => w = Crashed) snapshot) /\
  (status response = degraded <->
   Exists (fun w => w = Crashed) snapshot) /\
  workers_ready response = count_state Ready snapshot /\
  workers_total response = length snapshot /\
  (Forall (fun w => w = Ready) snapshot ->
   workers_ready response = workers_total response).
Proof.
  cbn.
  pose proof (count_state_positive Crashed snapshot) as Hc.
  pose proof (count_state_positive Starting snapshot) as Hs.
  pose proof (count_state_all_ready snapshot) as Hall.
  assert (Hnil : snapshot = [] ->
            count_state Crashed snapshot = 0 /\
            count_state Starting snapshot = 0)
    by (intros ->; split; reflexivity).
  destruct (count_state Crashed snapshot) as [| nc];
    destruct (count_state Starting snapshot) as [| ns];
    (split; [intros H; destruct (Hall H) as (_ & ? & ?);
             first [reflexivity | discriminate] |]);
    (split; [intros H; destruct (Hnil H);
             first [reflexivity | discriminate] |]);
    (split; [split; [intros; first [discriminate | split; [apply Hs; lia
                                                    | rewrite <- Hc; lia]]
                    | intros [H1 H2]; first [reflexivity
                                            | apply Hs in H1; lia
                                            | exfalso; apply H2, Hc; lia]]
            |]);
    (split; [split; [intros; first [discriminate | apply Hc; lia]
                    | intros H; first [reflexivity | apply Hc in H; lia]]
            |]);
    (split; [reflexivity |]); (split; [reflexivity |]);
    intros H; exact (proj1 (Hall H)).
Qed.

Lemma health_of_snapshot_witness :
  status (health (summarize [Ready; Ready])) = ok.
Proof.
  apply (proj1 (health_of_snapshot [Ready; Ready])).
  repeat constructor.
Defined.

(** The summaries the unit tests of the endpoint feed it. *)
Example health_all_ready :
  health {| total := 2; ready := 2; starting := 0; crashed := 0 |}
  = {| status := ok; workers_ready := 2; workers_total := 2 |}.
Proof. reflexivity. Qed.

Example health_still_starting :
  health {| total := 2; ready := 1; starting := 1; crashed := 0 |}
  = {| status := loading; workers_ready := 1; workers_total := 2 |}.
Proof. reflexivity. Qed.

Example health_one_crashed :
  health {| total := 2; ready := 1; starting := 0; crashed := 1 |}
  = {| status := degraded; workers_ready := 1; workers_total := 2 |}.
Proof. reflexivity. Qed.

(** ** Engine availability *)

(** C8. An engine that is not a key of the engine-to-package mapping is
    reported available; a known engine is available exactly when its
    package can be found. *)
Theorem unknown_engine_passes_known_engine_needs_package
    (ENGINE_PACKAGE : gmap string string)
    (find_spec : string -> option string) (engine : string) :
  (ENGINE_PACKAGE !! engine = None ->
   is_engine_available ENGINE_PACKAGE find_spec engine = true) /\
  (forall package,
     ENGINE_PACKAGE !! engine = Some package ->
     (is_engine_available ENGINE_PACKAGE find_spec engine = true <->
      is_Some (find_spec package))).
Proof.
  unfold is_engine_available. split.
  - intros ->. reflexivity.
  - intros package ->. destruct (find_spec package) as [m |].
    + split; [intros _; now exists m | reflexivity].
    + split; [discriminate | intros [m [=]]].
Qed.

Lemma unknown_engine_passes_known_engine_needs_package_witness :
  is_engine_available
    {["faster-whisper" := "faster_whisper"; "kokoro" := "kokoro"]}
    (fun _ => None) "some-future-engine" = true.
Proof.
  exact (proj1 (unknown_engine_passes_known_engine_needs_package
                  {["faster-whisper" := "faster_whisper";
                    "kokoro" := "kokoro"]}
                  (fun _ => None) "some-future-engine") eq_refl).
Defined.

(** The three cases of the unit tests. *)
Example known_engine_available :
  is_engine_available {["faster-whisper" := "faster_whisper"]}
    (fun _ => Some "fake_spec") "faster-whisper" = true.
Proof. reflexivity. Qed.

Example known_engine_not_available :
  is_engine_available {["kokoro" := "kokoro"]} (fun _ => None) "kokoro"
  = false.
Proof. reflexivity. Qed.

(** * Further properties of the worker *)

(** ** The ways [serve] can start *)

(** The five ways the startup of [serve] can go: the engine is unknown;
    the load fails; the warmup is cut short by something that is not an
    [Exception]; the warmup completes; the warmup fails and is tolerated.
    In the last two the server is set up and started. *)
Lemma serve_startup_shapes (env : Env) (port : Z) (engine model_path : string)
    (engine_config : gmap string pyobject) :
  let st := serve_startup env port engine model_path engine_config in
  let before b :=
    [Log Info "loading_model"
         [("engine", VStr engine); ("model_path", VStr model_path)];
     BackendLoad b model_path engine_config] in
  let warm b :=
    [Log Info "model_loaded" [("engine", VStr engine)];
     BackendSynthesize b "warmup"; StreamAnext] in
  let setup b :=
    [NewServicer b
       (py_str (dict_get engine_config "model_name" (PyStr "unknown")))
       engine;
     NewServer; AddServicerToServer;
     AddInsecurePort ("[::]:" +:+ pretty port);
     AddSignalHandler SIGTERM; AddSignalHandler SIGINT; ServerStart] in
  (engine <> "kokoro" /\ engine <> "qwen3-tts" /\
   st = ([], Raise (ValueError ("Engine TTS nao suportada: " +:+ engine))))
  \/
  exists b,
    _create_backend engine = ([], Return b) /\
    ((exists e,
        backend_load env b model_path engine_config = Raise e /\
        st = (before b, Raise e))
     \/
     (backend_load env b model_path engine_config = Return tt /\
      ((exists e,
          backend_synthesize env b "warmup" = SRaise e /\
          isinstance_Exception e = false /\
          st = (before b ++ warm b, Raise e))
       \/
       ((forall e, backend_synthesize env b "warmup" <> SRaise e) /\
        st = (before b ++ warm b ++ [Log Info "warmup_complete" []]
                ++ setup b, Return b))
       \/
       (exists e,
          backend_synthesize env b "warmup" = SRaise e /\
          isinstance_Exception e = true /\
          st = (before b ++ warm b
                  ++ [Log Warning "warmup_failed"
                          [("error", VStr (exc_str e))]]
                  ++ setup b, Return b))))).
Proof.
  cbn zeta.
  assert (Hb : forall b,
    _create_backend engine = ([], Return b) ->
    (exists e,
        backend_load env b model_path engine_config = Raise e /\
        serve_startup env port engine model_path engine_config
          = ([Log Info "loading_model"
                  [("engine", VStr engine); ("model_path", VStr model_path)];
              BackendLoad b model_path engine_config], Raise e))
    \/
    (backend_load env b model_path engine_config = Return tt /\
     ((exists e,
         backend_synthesize env b "warmup" = SRaise e /\
         isinstance_Exception e = false /\
         serve_startup env port engine model_path engine_config
           = ([Log Info "loading_model"
                   [("engine", VStr engine);
                    ("model_path", VStr model_path)];
               BackendLoad b model_path engine_config]
              ++ [Log Info "model_loaded" [("engine", VStr engine)];
                  BackendSynthesize b "warmup"; StreamAnext], Raise e))
      \/
      ((forall e, backend_synthesize env b "warmup" <> SRaise e) /\
       serve_startup env port engine model_path engine_config
         = ([Log Info "loading_model"
                 [("engine", VStr engine); ("model_path", VStr model_path)];
             BackendLoad b model_path engine_config]
            ++ [Log Info "model_loaded" [("engine", VStr engine)];
                BackendSynthesize b "warmup"; StreamAnext]
            ++ [Log Info "warmup_complete" []]
            ++ [NewServicer b
                  (py_str (dict_get engine_config "model_name"
                             (PyStr "unknown")))
                  engine;
                NewServer; AddServicerToServer;
                AddInsecurePort ("[::]:" +:+ pretty port);
                AddSignalHandler SIGTERM; AddSignalHandler SIGINT;
                ServerStart], Return b))
      \/
      (exists e,
         backend_synthesize env b "warmup" = SRaise e /\
         isinstance_Exception e = true /\
         serve_startup env port engine model_path engine_config
           = ([Log Info "loading_model"
                   [("engine", VStr engine);
                    ("model_path", VStr model_path)];
               BackendLoad b model_path engine_config]
              ++ [Log Info "model_loaded" [("engine", VStr engine)];
                  BackendSynthesize b "warmup"; StreamAnext]
              ++ [Log Warning "warmup_failed"
                      [("error", VStr (exc_str e))]]
              ++ [NewServicer b
                    (py_str (dict_get engine_config "model_name"
                               (PyStr "unknown")))
                    engine;
                  NewServer; AddServicerToServer;
                  AddInsecurePort ("[::]:" +:+ pretty port);
                  AddSignalHandler SIGTERM; AddSignalHandler SIGINT;
                  ServerStart], Return b))))).
  { intros b Hc.
    destruct (backend_load env b model_path engine_config)
      as [[] | e] eqn:Hl.
    - right. split; [reflexivity |].
      rewrite (serve_startup_loaded _ _ _ _ _ _ Hc Hl), warmup_backend_cases.
      destruct (backend_synthesize env b "warmup") as [| e | c rest] eqn:Hs.
      + right; left. split; [discriminate | reflexivity].
      + destruct (isinstance_Exception e) eqn:He.
        * right; right. exists e.
          split; [reflexivity | split; [exact He | reflexivity]].
        * left. exists e.
          split; [reflexivity | split; [exact He | reflexivity]].
      + right; left. split; [discriminate | reflexivity].
    - left. exists e. split; [reflexivity |].
      exact (serve_startup_load_failed _ _ _ _ _ _ _ Hc Hl). }
  destruct (create_backend_cases engine)
    as [[_ Hc] | [[_ Hc] | (Hk & Hq & Hc)]].
  - right. eexists. split; [exact Hc | exact (Hb _ Hc)].
  - right. eexists. split; [exact Hc | exact (Hb _ Hc)].
  - left. repeat split; try assumption.
    unfold serve_startup. rewrite Hc. reflexivity.
Qed.

(** X1. [_warmup_backend] raises only what the first [__anext__] raises
    and [except Exception] lets through, and then it writes no record; it
    writes exactly one record whenever it returns; and a synthesis that
    ends without yielding a single chunk counts as a completed warmup. *)
Theorem warmup_raises_only_non_exceptions (env : Env)
    (backend : TTSBackend) :
  let w := _warmup_backend env backend in
  (forall e,
     snd w = Raise e <->
     backend_synthesize env backend "warmup" = SRaise e /\
     isinstance_Exception e = false) /\
  (forall e, snd w = Raise e -> count is_log (fst w) = 0) /\
  (snd w = Return tt -> count is_log (fst w) = 1) /\
  (backend_synthesize env backend "warmup" = SEnd ->
   w = ([BackendSynthesize backend "warmup"; StreamAnext;
         Log Info "warmup_complete" []], Return tt)).
Proof.
  cbn zeta. rewrite warmup_backend_cases.
  destruct (backend_synthesize env backend "warmup") as [| e | c rest].
  - split; [| split; [| split]]; try reflexivity; try discriminate.
    intros e; split; [discriminate | intros [[=] _]].
  - destruct (isinstance_Exception e) eqn:He; cbn.
    + split; [| split; [| split]]; try reflexivity; try discriminate.
      intros e'; split; [discriminate | intros [[= <-] He']; congruence].
    + split; [| split; [| split]]; try reflexivity; try discriminate.
      intros e'; split.
      * intros [= <-]. split; [reflexivity | exact He].
      * intros [[= <-] _]. reflexivity.
  - split; [| split; [| split]]; try reflexivity; try discriminate.
    intros e; split; [discriminate | intros [[=] _]].
Qed.

(** X2. A [KeyboardInterrupt] raised by the warmup synthesis is not a
    warmup failure: [serve] stops right there, with the model loaded but
    no servicer, server, port or signal handler, and [main] turns the
    interrupt into [worker_interrupted] and exit status 0. *)
Theorem interrupt_during_warmup_exits_zero (env : Env) (argv : list string)
    (args : Namespace) (engine_config : gmap string pyobject)
    (backend : TTSBackend) :
  parse_args env argv = Return args ->
  json_loads env (ns_engine_config args) = Return engine_config ->
  _create_backend (ns_engine args) = ([], Return backend) ->
  backend_load env backend (ns_model_path args) engine_config = Return tt ->
  backend_synthesize env backend "warmup" = SRaise KeyboardInterrupt ->
  main env argv []
    = Some ([ConfigureLogging;
             Log Info "loading_model"
                 [("engine", VStr (ns_engine args));
                  ("model_path", VStr (ns_model_path args))];
             BackendLoad backend (ns_model_path args) engine_config;
             Log Info "model_loaded" [("engine", VStr (ns_engine args))];
             BackendSynthesize backend "warmup"; StreamAnext;
             Log Info "worker_interrupted" []],
            Raise (SystemExit 0)) /\
  exit_status (Raise (SystemExit 0)) = 0%Z.
Proof.
  intros Hargs Hjson Hc Hl Hs. split; [| reflexivity].
  unfold main. rewrite Hargs, Hjson. unfold asyncio_run_serve.
  rewrite (serve_startup_loaded _ _ _ _ _ _ Hc Hl), warmup_backend_cases, Hs.
  reflexivity.
Qed.

Lemma interrupt_during_warmup_exits_zero_witness :
  exists tr,
    main interrupted_warmup_env [] [] = Some (tr, Raise (SystemExit 0)).
Proof.
  eexists.
  exact (proj1 (interrupt_during_warmup_exits_zero interrupted_warmup_env []
                  sample_args ∅ KokoroBackend
                  eq_refl eq_refl eq_refl eq_refl eq_refl)).
Defined.



(** ** What a started worker has set up *)

(** X4. When the startup succeeds, exactly one servicer is created: it
    wraps the backend that was loaded, for the engine asked for, under
    the name [str(engine_config["model_name"])], or "unknown" when the
    configuration has no such key. *)
Theorem servicer_is_named_from_config (env : Env) (port : Z)
    (engine model_path : string) (engine_config : gmap string pyobject)
    (tr : list event) (backend : TTSBackend) :
  serve_startup env port engine model_path engine_config
    = (tr, Return backend) ->
  List.filter is_new_servicer tr
    = [NewServicer backend
         match engine_config !! "model_name" with
         | Some v => py_str v
         | None => "unknown"
         end
         engine] /\
  List.filter is_load tr = [BackendLoad backend model_path engine_config] /\
  (engine = "kokoro" /\ backend = KokoroBackend \/
   engine = "qwen3-tts" /\ backend = Qwen3TTSBackend).
Proof.
  intros Hstart.
  assert (Hname :
    py_str (dict_get engine_config "model_name" (PyStr "unknown"))
    = match engine_config !! "model_name" with
      | Some v => py_str v
      | None => "unknown"
      end).
  { unfold dict_get. destruct (engine_config !! "model_name"); reflexivity. }
  pose proof (serve_startup_shapes env port engine model_path engine_config)
    as Hsh.
  cbn zeta in Hsh. rewrite Hstart in Hsh.
  assert (Hwhich : forall b,
            _create_backend engine = ([], Return b) ->
            engine = "kokoro" /\ b = KokoroBackend \/
            engine = "qwen3-tts" /\ b = Qwen3TTSBackend).
  { intros b Hc.
    destruct (create_backend_cases engine)
      as [[E H] | [[E H] | (_ & _ & H)]]; rewrite H in Hc.
    - left. injection Hc as <-. split; [exact E | reflexivity].
    - right. injection Hc as <-. split; [exact E | reflexivity].
    - discriminate Hc. }
  destruct Hsh as [(_ & _ & H) | (b & Hc & [(e0 & _ & H) | (_ & [(e0 & _ & _ & H) | [(_ & H) | (e0 & _ & _ & H)]])])];
    first [ discriminate H
          | injection H as -> ->; rewrite <- Hname;
            (split; [reflexivity
                    | split; [reflexivity | exact (Hwhich _ Hc)]]) ].
Qed.

Lemma servicer_is_named_from_config_witness :
  List.filter is_new_servicer
    (fst (serve_startup quiet_env 50052 "kokoro" "/models/kokoro-v1"
            {["model_name" := PyStr "kokoro-v1"]}))
  = [NewServicer KokoroBackend "kokoro-v1" "kokoro"].
Proof.
  exact (proj1 (servicer_is_named_from_config quiet_env 50052%Z "kokoro"
                  "/models/kokoro-v1" {["model_name" := PyStr "kokoro-v1"]}
                  _ KokoroBackend eq_refl)).
Defined.

(** X5. The handlers for SIGTERM and SIGINT are installed only after the
    model has loaded and the warmup has been issued, and before the
    server is started, as is the one listening port, "[::]:<port>".  When
    [serve] fails before it comes to call [server.start()] (an unsupported
    engine, a failed load, a warmup that raises), it has installed no
    handler, bound no port and started no server.  When it is
    [server.start()] that fails, [serve] ends with that exception with
    both handlers installed and the port bound. *)
Theorem signal_handlers_installed_after_warmup (env : Env) (port : Z)
    (engine model_path : string) (engine_config : gmap string pyobject) :
  let tr := fst (serve_startup env port engine model_path engine_config) in
  let r := snd (serve_startup env port engine model_path engine_config) in
  (forall b,
     r = Return b ->
     List.filter is_signal_handler tr
       = [AddSignalHandler SIGTERM; AddSignalHandler SIGINT] /\
     List.filter is_port tr = [AddInsecurePort ("[::]:" +:+ pretty port)] /\
     forall e,
       server_start env = Raise e ->
       exists s,
         step env port engine b ResumeMain (init_loop tr) = Some s /\
         serve_pc s = MainRaised e /\
         count is_signal_handler (trace s) = 2 /\
         count is_port (trace s) = 1 /\
         count is_server_start (trace s) = 1) /\
  (forall e,
     r = Raise e ->
     count is_signal_handler tr = 0 /\ count is_port tr = 0 /\
     count is_server_start tr = 0) /\
  preceded_by is_load is_signal_handler false tr = true /\
  preceded_by is_synthesize is_signal_handler false tr = true /\
  preceded_by is_signal_handler is_server_start false tr = true /\
  preceded_by is_port is_server_start false tr = true.
Proof.
  cbn zeta.
  pose proof (serve_startup_shapes env port engine model_path engine_config)
    as Hsh.
  cbn zeta in Hsh.
  destruct Hsh as [(_ & _ & H) | (b & Hc & [(e0 & _ & H) | (_ & [(e0 & _ & _ & H) | [(_ & H) | (e0 & _ & _ & H)]])])];
    rewrite H;
    (split;
     [intros b' Hr;
      first
        [ discriminate Hr
        | split; [reflexivity |]; split; [reflexivity |];
          intros e Hst; eexists;
          (split;
           [unfold step, serve_resume; cbn; rewrite Hst; reflexivity
           | repeat split]) ] |]);
    (split; [intros e' Hr;
             first [discriminate Hr | repeat split; reflexivity] |]);
    repeat split; reflexivity.
Qed.

Lemma startup_port_binding (env : Env) (port : Z)
    (engine model_path : string) (engine_config : gmap string pyobject)
    (tr : list event) (backend : TTSBackend) :
  serve_startup env port engine model_path engine_config
    = (tr, Return backend) ->
  List.filter is_port tr = [AddInsecurePort ("[::]:" +:+ pretty port)].
Proof.
  intros Hstart.
  pose proof (serve_startup_shapes env port engine model_path engine_config)
    as Hsh.
  cbn zeta in Hsh. rewrite Hstart in Hsh.
  destruct Hsh as [(_ & _ & H) | (b & Hc & [(e0 & _ & H) | (_ & [(e0 & _ & _ & H) | [(_ & H) | (e0 & _ & _ & H)]])])];
    first [discriminate H | injection H as -> _; reflexivity].
Qed.

(** X6. The listening address tells the port: two workers that bind the
    same address were given the same port. *)
Theorem listen_address_determines_port (env1 env2 : Env) (port1 port2 : Z)
    (engine1 engine2 path1 path2 : string)
    (config1 config2 : gmap string pyobject) (tr1 tr2 : list event)
    (b1 b2 : TTSBackend) :
  serve_startup env1 port1 engine1 path1 config1 = (tr1, Return b1) ->
  serve_startup env2 port2 engine2 path2 config2 = (tr2, Return b2) ->
  List.filter is_port tr1 = List.filter is_port tr2 ->
  port1 = port2.
Proof.
  intros H1 H2 Heq.
  pose proof (startup_port_binding env1 port1 engine1 path1 config1
                tr1 b1 H1) as P1.
  pose proof (startup_port_binding env2 port2 engine2 path2 config2
                tr2 b2 H2) as P2.
  rewrite P1, P2 in Heq. injection Heq as Heq.
  apply (inj pretty). exact Heq.
Qed.

Lemma listen_address_determines_port_witness : 50052%Z = 50052%Z.
Proof.
  exact (listen_address_determines_port quiet_env quiet_env 50052%Z 50052%Z
           "kokoro" "qwen3-tts" "/models/kokoro-v1" "/models/qwen3" ∅ ∅
           _ _ KokoroBackend Qwen3TTSBackend eq_refl eq_refl eq_refl).
Defined.

(** ** More about the event loop *)

Lemma count_app (p : event -> bool) (tr evs : list event) :
  count p (tr ++ evs) = count p tr + count p evs.
Proof. unfold count. rewrite List.filter_app. apply length_app. Qed.

Lemma shutdown_events_app (tr evs : list event) :
  shutdown_events (tr ++ evs) = shutdown_events tr ++ shutdown_events evs.
Proof. apply List.filter_app. Qed.

Lemma count_in_shutdown_events (p : event -> bool) (tr : list event) :
  (forall e, p e = true -> is_shutdown_event e = true) ->
  count p tr = count p (shutdown_events tr).
Proof.
  intros Hp. unfold count, shutdown_events.
  now rewrite filter_filter_weaker.
Qed.

(** What a successful startup has called, and what it has not. *)
Lemma serve_startup_counts (env : Env) (port : Z) (engine model_path : string)
    (engine_config : gmap string pyobject) (tr : list event)
    (backend : TTSBackend) :
  serve_startup env port engine model_path engine_config
    = (tr, Return backend) ->
  shutdown_events tr = [] /\
  count (is_log_named "worker_started") tr = 0 /\
  count is_load tr = 1 /\ count is_synthesize tr = 1 /\
  count is_anext tr = 1 /\ count is_new_servicer tr = 1 /\
  count is_port tr = 1 /\ count is_signal_handler tr = 2 /\
  count is_server_start tr = 1.
Proof.
  intros Hstart.
  pose proof (serve_startup_shapes env port engine model_path engine_config)
    as Hsh.
  cbn zeta in Hsh. rewrite Hstart in Hsh.
  destruct Hsh as [(_ & _ & H) | (b & Hc & [(e0 & _ & H) | (_ & [(e0 & _ & _ & H) | [(_ & H) | (e0 & _ & _ & H)]])])];
    first [discriminate H | injection H as -> _; repeat split].
Qed.

(** The event loop never loads, synthesizes, binds or starts anything. *)
Lemma loop_events_counts (env : Env) (port : Z) (engine : string)
    (backend : TTSBackend) (evs : list event) :
  Forall (loop_event env port engine backend) evs ->
  count is_load evs = 0 /\ count is_synthesize evs = 0 /\
  count is_anext evs = 0 /\ count is_new_servicer evs = 0 /\
  count is_port evs = 0 /\ count is_signal_handler evs = 0 /\
  count is_server_start evs = 0.
Proof.
  induction 1 as [| ev evs Hev _ IH]; [repeat split |].
  unfold count in *. cbn.
  destruct Hev as [-> | [-> | [-> | [[-> _] | [-> | ->]]]]]; exact IH.
Qed.

(** ** Counting tasks *)

Lemma count_tasks_insert (p : task_pc -> bool) (l : list task_pc) (i : nat)
    (x y : task_pc) :
  l !! i = Some y ->
  count_tasks p (<[i := x]> l) + (if p y then 1 else 0)
    = count_tasks p l + (if p x then 1 else 0).
Proof.
  revert i. induction l as [| z l IH]; intros [| i] Hi; try discriminate.
  - injection Hi as ->. unfold count_tasks. cbn.
    destruct (p x), (p y); cbn; lia.
  - cbn in Hi. specialize (IH i Hi). unfold count_tasks in *.
    change (<[S i := x]> (z :: l)) with (z :: <[i := x]> l).
    cbn [List.filter]. destruct (p z); cbn [length]; lia.
Qed.

Lemma count_tasks_snoc (p : task_pc -> bool) (l : list task_pc)
    (x : task_pc) :
  count_tasks p (l ++ [x]) = count_tasks p l + (if p x then 1 else 0).
Proof.
  unfold count_tasks. rewrite List.filter_app, length_app. cbn.
  destruct (p x); reflexivity.
Qed.

Lemma count_in_sequence_cancel (l : list task_pc) :
  count_tasks in_sequence (cancel_task <$> l) <= count_tasks in_sequence l.
Proof.
  induction l as [| pc l IH]; [reflexivity |].
  unfold count_tasks in *. cbn. destruct pc; cbn; lia.
Qed.

Lemma lookup_cancel_failed (l : list task_pc) (i : nat) (e : BaseException) :
  (cancel_task <$> l) !! i = Some (TaskFailed e) ->
  l !! i = Some (TaskFailed e).
Proof.
  rewrite list_lookup_fmap.
  destruct (l !! i) as [[] |]; cbn; congruence.
Qed.




Section MoreLoopProperties.

Variable env : Env.
Variables (port : Z) (engine : string) (backend : TTSBackend).

Lemma init_loop_shutdown_log_inv (tr : list event) :
  shutdown_events tr = [] -> shutdown_log_inv env backend (init_loop tr).
Proof.
  intros H. left. repeat split; [exact H | |]; intros i Hi; discriminate.
Qed.

Ltac log_cases H :=
  destruct H as [(Hev & Hsd & Hstop & Hunl)
                | [(Hev & Hsd & Hstop & Hunl)
                  | [(Hev & Hsd & Hst & Hstop & Hunl)
                    | (Hev & Hsd & Hst & Hun & Hstop & Hunl)]]].

Ltac log_goal :=
  cbn; rewrite ?shutdown_events_app;
  repeat match goal with
         | H : shutdown_events _ = _ |- _ => rewrite H; clear H
         end;
  repeat split; solve [eauto with tasks].

Ltac keep_log_stage :=
  first [ left; log_goal
        | right; left; log_goal
        | right; right; left; log_goal
        | right; right; right; log_goal ].

Lemma step_shutdown_log_inv (l : label) (s s' : loop_state) :
  shutdown_log_inv env backend s ->
  step env port engine backend l s = Some s' ->
  shutdown_log_inv env backend s'.
Proof.
  intros Hinv Hstep. unfold step in Hstep.
  destruct (loop_closed s); [discriminate |].
  destruct l as [sig | i | | |].
  - injection Hstep as <-. log_cases Hinv; keep_log_stage.
  - unfold _shutdown in Hstep.
    destruct (tasks s !! i) as [[] |] eqn:Hi; try discriminate.
    + destruct (shutting_down s) eqn:Hflag; injection Hstep as <-;
        log_cases Hinv; try congruence; keep_log_stage.
    + destruct (server_stop env STOP_GRACE_PERIOD) as [[] | e] eqn:Hst'.
      * destruct (server_stopped s) eqn:Hsrv'; [| discriminate].
        injection Hstep as <-.
        log_cases Hinv; try (destruct (Hstop i Hi)). keep_log_stage.
      * injection Hstep as <-.
        log_cases Hinv; try (destruct (Hstop i Hi)); keep_log_stage.
    + destruct (backend_unload env backend) as [[] | e] eqn:Hun';
        injection Hstep as <-;
        log_cases Hinv; try (destruct (Hunl i Hi)); keep_log_stage.
  - destruct (server_stop env STOP_GRACE_PERIOD) as [[] | e];
      [| discriminate].
    destruct (shutting_down s && negb (server_stopped s));
      [| discriminate].
    injection Hstep as <-. log_cases Hinv; keep_log_stage.
  - unfold serve_resume in Hstep.
    destruct (serve_pc s); try discriminate.
    + destruct (server_start env) as [[] | e]; injection Hstep as <-;
        log_cases Hinv; keep_log_stage.
    + destruct (server_stopped s); [| discriminate].
      injection Hstep as <-. log_cases Hinv; keep_log_stage.
  - destruct (running s); [discriminate |].
    injection Hstep as <-. log_cases Hinv; keep_log_stage.
Qed.

Ltac state_fields :=
  unfold _signal_handler, set_task, emit_in, set_shutting_down,
    set_server_stopped, set_main, cancel_all_tasks;
  cbn [tasks shutdown_task shutting_down trace server_stopped serve_pc
       loop_closed].

Ltac book_goal :=
  unfold bookkeeping_inv; state_fields;
  rewrite ?length_insert, ?length_app, ?length_fmap; cbn [length];
  match goal with
  | Hlast : shutdown_task _ = _, Hflag : _ -> 0 < _ |- _ =>
      split; [split |];
      [ rewrite ?Hlast; repeat case Nat.eqb_spec; intros;
        first [reflexivity | f_equal; lia | lia]
      | intros Hf; first [lia | specialize (Hflag Hf); lia]
      | lia ]
  end.

Lemma step_bookkeeping_inv (l : label) (s s' : loop_state) :
  bookkeeping_inv s ->
  step env port engine backend l s = Some s' ->
  bookkeeping_inv s' /\
  length (tasks s') = length (tasks s) + (if is_signal l then 1 else 0).
Proof.
  intros [Hlast Hflag] Hstep. unfold step in Hstep.
  destruct (loop_closed s); [discriminate |].
  destruct l as [sig | i | | |]; cbn [is_signal].
  - injection Hstep as <-. book_goal.
  - unfold _shutdown in Hstep.
    destruct (tasks s !! i) as [[] |] eqn:Hi; try discriminate;
      pose proof (lookup_lt_Some _ _ _ Hi) as Hlt.
    + destruct (shutting_down s) eqn:Hsd; injection Hstep as <-; book_goal.
    + destruct (server_stop env STOP_GRACE_PERIOD) as [[] | e];
        [destruct (server_stopped s); [| discriminate] |];
        injection Hstep as <-; book_goal.
    + destruct (backend_unload env backend) as [[] | e];
        injection Hstep as <-; book_goal.
  - destruct (server_stop env STOP_GRACE_PERIOD) as [[] | e];
      [| discriminate].
    destruct (shutting_down s && negb (server_stopped s));
      [| discriminate].
    injection Hstep as <-. book_goal.
  - unfold serve_resume in Hstep.
    destruct (serve_pc s); try discriminate.
    + destruct (server_start env) as [[] | e]; injection Hstep as <-;
        book_goal.
    + destruct (server_stopped s); [| discriminate].
      injection Hstep as <-. book_goal.
  - destruct (running s); [discriminate |].
    injection Hstep as <-. book_goal.
Qed.

Ltac started_goal :=
  unfold started_inv in *; state_fields;
  repeat match goal with
         | |- context [match serve_pc ?s with _ => _ end] =>
             destruct (serve_pc s)
         end;
  rewrite ?count_app;
  repeat match goal with
         | |- context [count (is_log_named "worker_started") (trace ?s)] =>
             let n := fresh "n" in
             remember (count (is_log_named "worker_started") (trace s)) as n;
             match goal with Hn : n = count _ _ |- _ => clear Hn end
         end;
  cbn;
  repeat match goal with
         | H : _ /\ _ |- _ => destruct H
         end;
  repeat split; solve [assumption | lia | discriminate | reflexivity].

Lemma step_started_inv (l : label) (s s' : loop_state) :
  started_inv env s ->
  step env port engine backend l s = Some s' ->
  started_inv env s'.
Proof.
  intros Hinv Hstep. unfold step in Hstep.
  destruct (loop_closed s); [discriminate |].
  destruct l as [sig | i | | |].
  - injection Hstep as <-. started_goal.
  - unfold _shutdown in Hstep.
    destruct (tasks s !! i) as [[] |]; try discriminate.
    + destruct (shutting_down s); injection Hstep as <-; started_goal.
    + destruct (server_stop env STOP_GRACE_PERIOD) as [[] | e];
        [destruct (server_stopped s); [| discriminate] |];
        injection Hstep as <-; started_goal.
    + destruct (backend_unload env backend) as [[] | e];
        injection Hstep as <-; started_goal.
  - destruct (server_stop env STOP_GRACE_PERIOD) as [[] | e];
      [| discriminate].
    destruct (shutting_down s && negb (server_stopped s));
      [| discriminate].
    injection Hstep as <-. started_goal.
  - unfold serve_resume in Hstep.
    destruct (serve_pc s) eqn:Hpc; try discriminate.
    + destruct (server_start env) as [[] | e] eqn:Hstart;
        injection Hstep as <-; unfold started_inv in *; state_fields;
        rewrite Hpc in Hinv; rewrite ?count_app, ?Hinv;
        (split; [reflexivity | exact Hstart]).
    + destruct (server_stopped s); [| discriminate].
      injection Hstep as <-. unfold started_inv in *. state_fields.
      rewrite Hpc in Hinv. exact Hinv.
  - destruct (running s); [discriminate |].
    injection Hstep as <-. started_goal.
Qed.

Lemma run_more_invariants (sched : list label) :
  forall s s',
    run env port engine backend sched s = Some s' ->
    (shutdown_log_inv env backend s -> shutdown_log_inv env backend s') /\
    (started_inv env s -> started_inv env s') /\
    (bookkeeping_inv s ->
     bookkeeping_inv s' /\
     length (tasks s') = length (tasks s) + count_signals sched).
Proof.
  induction sched as [| l sched IH]; intros s s' Hrun; cbn in Hrun.
  - injection Hrun as <-. split; [tauto |]. split; [tauto |].
    intros H. split; [exact H |]. unfold count_signals. cbn. lia.
  - destruct (step env port engine backend l s) as [s1 |] eqn:Hstep;
      [| discriminate].
    destruct (IH _ _ Hrun) as (Hlog & Hstarted & Hbook).
    split; [| split].
    + intros H. apply Hlog. exact (step_shutdown_log_inv _ _ _ H Hstep).
    + intros H. apply Hstarted. exact (step_started_inv _ _ _ H Hstep).
    + intros H.
      destruct (step_bookkeeping_inv _ _ _ H Hstep) as [H1 Hlen1].
      destruct (Hbook H1) as [H2 Hlen2].
      split; [exact H2 |].
      rewrite Hlen2, Hlen1. unfold count_signals. cbn.
      destruct (is_signal l); cbn; lia.
Qed.

Ltac failed_goal :=
  match goal with
  | H : failed_inv _ _ _ |- _ =>
      let Hfrom := fresh "Hfrom" in
      let Hnone := fresh "Hnone" in
      let Hone := fresh "Hone" in
      let Hj := fresh "Hj" in
      let Hf := fresh "Hf" in
      let Hc := fresh "Hc" in
      destruct H as (Hfrom & Hnone & Hone);
      unfold failed_inv; state_fields;
      split; [| split];
      [ intros j e' Hj;
        first
          [ exact (Hfrom j e' Hj)
          | apply list_lookup_insert_Some in Hj;
            destruct Hj as [(_ & Hj & _) | (_ & Hj)];
            [ first [discriminate Hj | injection Hj as <-; tauto]
            | exact (Hfrom j e' Hj) ]
          | apply lookup_app_Some in Hj;
            destruct Hj as [Hj | (_ & Hj)];
            [ exact (Hfrom j e' Hj)
            | destruct (j - length (tasks _)) as [| k];
              cbn in Hj; discriminate Hj ]
          | exact (Hfrom j e' (lookup_cancel_failed _ _ _ Hj)) ]
      | try (intros Hf; discriminate Hf);
        intros Hf; specialize (Hnone Hf);
        first
          [ exact Hnone
          | rewrite count_tasks_snoc; cbn; lia
          | match goal with
            | Hi : tasks _ !! _ = Some ?y
              |- count_tasks _ (<[_ := ?x]> _) = _ =>
                pose proof (count_tasks_insert in_sequence _ _ x y Hi) as Hc;
                cbn in Hc; lia
            end
          | match goal with
            | |- count_tasks _ (cancel_task <$> ?l) = _ =>
                pose proof (count_in_sequence_cancel l) as Hc; lia
            end ]
      | first
          [ exact Hone
          | rewrite count_tasks_snoc; cbn; lia
          | match goal with
            | Hi : tasks _ !! _ = Some ?y
              |- count_tasks _ (<[_ := ?x]> _) <= _ =>
                pose proof (count_tasks_insert in_sequence _ _ x y Hi) as Hc;
                cbn in Hc;
                try (match goal with
                     | Hsd : shutting_down _ = false |- _ =>
                         specialize (Hnone Hsd)
                     end);
                lia
            end
          | match goal with
            | |- count_tasks _ (cancel_task <$> ?l) <= _ =>
                pose proof (count_in_sequence_cancel l) as Hc; lia
            end ] ]
  end.

Lemma step_failed_inv (l : label) (s s' : loop_state) :
  failed_inv env backend s ->
  step env port engine backend l s = Some s' ->
  failed_inv env backend s'.
Proof.
  intros Hinv Hstep. unfold step in Hstep.
  destruct (loop_closed s); [discriminate |].
  destruct l as [sig | i | | |].
  - injection Hstep as <-. failed_goal.
  - unfold _shutdown in Hstep.
    destruct (tasks s !! i) as [[] |] eqn:Hi; try discriminate.
    + destruct (shutting_down s) eqn:Hsd; injection Hstep as <-;
        failed_goal.
    + destruct (server_stop env STOP_GRACE_PERIOD) as [[] | e] eqn:Hst;
        [destruct (server_stopped s); [| discriminate] |];
        injection Hstep as <-; failed_goal.
    + destruct (backend_unload env backend) as [[] | e] eqn:Hun;
        injection Hstep as <-; failed_goal.
  - destruct (server_stop env STOP_GRACE_PERIOD) as [[] | e];
      [| discriminate].
    destruct (shutting_down s && negb (server_stopped s));
      [| discriminate].
    injection Hstep as <-. failed_goal.
  - unfold serve_resume in Hstep.
    destruct (serve_pc s); try discriminate.
    + destruct (server_start env) as [[] | e]; injection Hstep as <-;
        failed_goal.
    + destruct (server_stopped s); [| discriminate].
      injection Hstep as <-. failed_goal.
  - destruct (running s); [discriminate |].
    injection Hstep as <-. failed_goal.
Qed.

Lemma run_failed_inv (sched : list label) :
  forall s s',
    run env port engine backend sched s = Some s' ->
    failed_inv env backend s -> failed_inv env backend s'.
Proof.
  induction sched as [| l sched IH]; intros s s' Hrun Hinv; cbn in Hrun.
  - injection Hrun as <-. exact Hinv.
  - destruct (step env port engine backend l s) as [s1 |] eqn:Hstep;
      [| discriminate].
    exact (IH _ _ Hrun (step_failed_inv _ _ _ Hinv Hstep)).
Qed.

(** What [run_to_close] answers, in terms of the state [run] reaches. *)
Lemma run_to_close_run (sched : list label) :
  forall s tr r,
    run_to_close env port engine backend sched s = Some (tr, r) ->
    exists s',
      run env port engine backend sched s = Some s' /\ tr = trace s' /\
      (r = Return tt /\ serve_pc s' = MainReturned \/
       exists e,
         r = Raise e /\
         (serve_pc s' = MainRaised e \/
          exists i,
            tasks s' !! i = Some (TaskFailed e) /\
            reraised_by_loop e = true)).
Proof.
  induction sched as [| l sched IH]; intros s tr r Hrun; cbn in Hrun.
  - exists s. split; [reflexivity |].
    destruct (loop_closed s); [| discriminate].
    destruct (serve_pc s) as [| | | e] eqn:Hpc; try discriminate;
      injection Hrun as <- <-; (split; [reflexivity |]).
    + left. split; reflexivity.
    + right. exists e. split; [reflexivity |]. left. reflexivity.
  - cbn. destruct (step env port engine backend l s) as [s1 |] eqn:Hstep;
      [| discriminate].
    destruct (interrupted_by l s1) as [e |] eqn:Hint;
      [| exact (IH _ _ _ Hrun)].
    destruct sched as [| l' sched]; [| discriminate].
    injection Hrun as <- <-. exists s1.
    split; [reflexivity |]. split; [reflexivity |].
    right. exists e. split; [reflexivity |].
    unfold interrupted_by in Hint. destruct l as [sig | i | | |];
      try discriminate.
    + right. exists i.
      destruct (tasks s1 !! i) as [[| | | | e1 |] |]; try discriminate.
      destruct (reraised_by_loop e1) eqn:Hre; [| discriminate].
      injection Hint as <-. split; [reflexivity | exact Hre].
    + left. destruct (serve_pc s1) as [| | | e1]; try discriminate.
      destruct (reraised_by_loop e1); [| discriminate].
      injection Hint as <-. reflexivity.
Qed.

End MoreLoopProperties.

(** Every state the worker reaches after a successful startup, again. *)
Lemma reachable_more_invariants (env : Env) (port : Z)
    (engine model_path : string) (engine_config : gmap string pyobject)
    (backend : TTSBackend) (tr0 : list event) (sched : list label)
    (s : loop_state) :
  serve_startup env port engine model_path engine_config
    = (tr0, Return backend) ->
  run env port engine backend sched (init_loop tr0) = Some s ->
  shutdown_log_inv env backend s /\ started_inv env s /\
  bookkeeping_inv s /\ length (tasks s) = count_signals sched.
Proof.
  intros Hstart Hrun.
  destruct (serve_startup_counts _ _ _ _ _ _ _ Hstart) as (Hev & Hws & _).
  destruct (run_more_invariants env port engine backend sched _ _ Hrun)
    as (Hlog & Hstarted & Hbook).
  split; [| split].
  - apply Hlog, init_loop_shutdown_log_inv. exact Hev.
  - apply Hstarted. exact Hws.
  - apply Hbook. split; [reflexivity | discriminate].
Qed.

Lemma shutdown_log_inv_events (env : Env) (backend : TTSBackend)
    (s : loop_state) :
  shutdown_log_inv env backend s ->
  (shutdown_events (trace s) = [] /\ shutting_down s = false)
  \/ (shutdown_events (trace s)
        = [shutdown_start_record; ServerStop STOP_GRACE_PERIOD] /\
      shutting_down s = true)
  \/ (shutdown_events (trace s)
        = [shutdown_start_record; ServerStop STOP_GRACE_PERIOD;
           BackendUnload backend] /\
      shutting_down s = true /\
      server_stop env STOP_GRACE_PERIOD = Return tt)
  \/ (shutdown_events (trace s)
        = [shutdown_start_record; ServerStop STOP_GRACE_PERIOD;
           BackendUnload backend; Log Info "shutdown_complete" []] /\
      shutting_down s = true /\
      server_stop env STOP_GRACE_PERIOD = Return tt /\
      backend_unload env backend = Return tt).
Proof. unfold shutdown_log_inv. tauto. Qed.

(** ** A failing [backend.unload] *)

Lemma reachable_failed_inv (env : Env) (port : Z) (engine : string)
    (backend : TTSBackend) (tr0 : list event) (sched : list label)
    (s : loop_state) :
  run env port engine backend sched (init_loop tr0) = Some s ->
  failed_inv env backend s.
Proof.
  intros Hrun. apply (run_failed_inv env port engine backend sched _ _ Hrun).
  split; [| split].
  - intros i e Hi. discriminate Hi.
  - reflexivity.
  - unfold count_tasks. cbn. lia.
Qed.







(** X7. Over the whole life of a worker, whatever signals arrive and
    however the event loop runs, nothing of the startup happens twice:
    the model is loaded once, warmed up once with one [__anext__], one
    servicer and one port are set up, the two signal handlers are
    installed once each and the server is started once.  The trace only
    grows. *)
Theorem startup_calls_happen_once_in_a_lifetime (env : Env) (port : Z)
    (engine model_path : string) (engine_config : gmap string pyobject)
    (backend : TTSBackend) (tr0 : list event) (sched : list label)
    (s : loop_state) :
  serve_startup env port engine model_path engine_config
    = (tr0, Return backend) ->
  run env port engine backend sched (init_loop tr0) = Some s ->
  (exists evs, trace s = tr0 ++ evs) /\
  count is_load (trace s) = 1 /\
  count is_synthesize (trace s) = 1 /\
  count is_anext (trace s) = 1 /\
  count is_new_servicer (trace s) = 1 /\
  count is_port (trace s) = 1 /\
  count is_signal_handler (trace s) = 2 /\
  count is_server_start (trace s) = 1.
Proof.
  intros Hstart Hrun.
  destruct (reachable_invariants _ _ _ _ _ _ _ _ _ Hstart Hrun)
    as (_ & _ & evs & Htr & Hevs).
  destruct (serve_startup_counts _ _ _ _ _ _ _ Hstart)
    as (_ & _ & H1 & H2 & H3 & H4 & H5 & H6 & H7).
  destruct (loop_events_counts _ _ _ _ _ Hevs)
    as (L1 & L2 & L3 & L4 & L5 & L6 & L7).
  split; [exists evs; exact Htr |].
  rewrite Htr, !count_app. lia.
Qed.

Lemma startup_calls_happen_once_in_a_lifetime_witness :
  exists s,
    run quiet_env 50052 "kokoro" KokoroBackend
      [ResumeMain; Signal SIGTERM; Signal SIGINT; RunTask 1; RunTask 0;
       ServerStopped; RunTask 1; RunTask 1; ResumeMain; CancelTasks]
      (init_loop
         (fst (serve_startup quiet_env 50052 "kokoro" "/models/kokoro-v1"
                 ∅)))
      = Some s /\
    count is_load (trace s) = 1.
Proof.
  destruct (run quiet_env 50052 "kokoro" KokoroBackend
      [ResumeMain; Signal SIGTERM; Signal SIGINT; RunTask 1; RunTask 0;
       ServerStopped; RunTask 1; RunTask 1; ResumeMain; CancelTasks]
      (init_loop
         (fst (serve_startup quiet_env 50052 "kokoro" "/models/kokoro-v1"
                 ∅)))) as [s |] eqn:Hrun.
  - exists s. split; [reflexivity |].
    exact (proj1 (proj2
      (startup_calls_happen_once_in_a_lifetime quiet_env 50052%Z "kokoro"
         "/models/kokoro-v1" ∅ KokoroBackend _ _ s eq_refl Hrun))).
  - vm_compute in Hrun. discriminate Hrun.
Defined.

(** X8. The records of [_shutdown] follow its calls: in every state, what
    the trace has of the shutdown is a beginning of the one sequence
    [shutdown_start], [server.stop(5.0)], [backend.unload()],
    [shutdown_complete].  So [shutdown_start] is written exactly when
    [server.stop] is called, and [shutdown_complete] at most once, only
    after [backend.unload] was called and returned. *)
Theorem shutdown_records_follow_the_calls (env : Env) (port : Z)
    (engine model_path : string) (engine_config : gmap string pyobject)
    (backend : TTSBackend) (tr0 : list event) (sched : list label)
    (s : loop_state) :
  serve_startup env port engine model_path engine_config
    = (tr0, Return backend) ->
  run env port engine backend sched (init_loop tr0) = Some s ->
  (shutdown_events (trace s) = [] \/
   shutdown_events (trace s)
     = [shutdown_start_record; ServerStop STOP_GRACE_PERIOD] \/
   shutdown_events (trace s)
     = [shutdown_start_record; ServerStop STOP_GRACE_PERIOD;
        BackendUnload backend] \/
   shutdown_events (trace s)
     = [shutdown_start_record; ServerStop STOP_GRACE_PERIOD;
        BackendUnload backend; Log Info "shutdown_complete" []]) /\
  count (is_log_named "shutdown_start") (trace s)
    = count is_server_stop (trace s) /\
  count (is_log_named "shutdown_complete") (trace s)
    <= count is_unload (trace s) /\
  (count (is_log_named "shutdown_complete") (trace s) = 1 ->
   backend_unload env backend = Return tt /\
   server_stop env STOP_GRACE_PERIOD = Return tt).
Proof.
  intros Hstart Hrun.
  destruct (reachable_more_invariants _ _ _ _ _ _ _ _ _ Hstart Hrun)
    as (Hinv & _).
  rewrite (count_in_shutdown_events (is_log_named "shutdown_start")),
    (count_in_shutdown_events (is_log_named "shutdown_complete")),
    (count_in_shutdown_events is_server_stop),
    (count_in_shutdown_events is_unload).
  - destruct (shutdown_log_inv_events _ _ _ Hinv)
      as [[-> _] | [[-> _] | [(-> & _ & Hst) | (-> & _ & Hst & Hun)]]];
      (split; [tauto |]); cbn;
      (split; [reflexivity |]); (split; [lia |]);
      first [discriminate | intros _; split; assumption].
  - intros e He. unfold is_shutdown_event. rewrite He.
    now rewrite orb_true_r.
  - intros e He. unfold is_shutdown_event. now rewrite He.
  - intros e He. unfold is_shutdown_event. rewrite He.
    now rewrite orb_true_r.
  - intros e He. unfold is_shutdown_event. rewrite He.
    now rewrite !orb_true_r.
Qed.

Lemma shutdown_records_follow_the_calls_witness :
  exists s,
    run quiet_env 50052 "kokoro" KokoroBackend
      [ResumeMain; Signal SIGTERM; RunTask 0; ServerStopped; RunTask 0;
       RunTask 0]
      (init_loop
         (fst (serve_startup quiet_env 50052 "kokoro" "/models/kokoro-v1"
                 ∅)))
      = Some s /\
    count (is_log_named "shutdown_start") (trace s)
      = count is_server_stop (trace s).
Proof.
  destruct (run quiet_env 50052 "kokoro" KokoroBackend
      [ResumeMain; Signal SIGTERM; RunTask 0; ServerStopped; RunTask 0;
       RunTask 0]
      (init_loop
         (fst (serve_startup quiet_env 50052 "kokoro" "/models/kokoro-v1"
                 ∅)))) as [s |] eqn:Hrun.
  - exists s. split; [reflexivity |].
    exact (proj1 (proj2
      (shutdown_records_follow_the_calls quiet_env 50052%Z "kokoro"
         "/models/kokoro-v1" ∅ KokoroBackend _ _ s eq_refl Hrun))).
  - vm_compute in Hrun. discriminate Hrun.
Defined.

(** X9. When [server.stop] raises, the task that awaited it ends with the
    exception, and that is the end of the shutdown: [backend.unload] is
    never called, [shutdown_complete] is never written, and since
    [shutting_down] stays set, no later signal calls [server.stop]
    again. *)
Theorem failed_stop_is_not_retried (env : Env) (port : Z)
    (engine model_path : string) (engine_config : gmap string pyobject)
    (backend : TTSBackend) (tr0 : list event) (sched : list label)
    (s : loop_state) (e : BaseException) :
  serve_startup env port engine model_path engine_config
    = (tr0, Return backend) ->
  server_stop env STOP_GRACE_PERIOD = Raise e ->
  run env port engine backend sched (init_loop tr0) = Some s ->
  count is_unload (trace s) = 0 /\
  count (is_log_named "shutdown_complete") (trace s) = 0 /\
  count is_server_stop (trace s) <= 1 /\
  (forall i,
     loop_closed s = false -> tasks s !! i = Some TaskAwaitStop ->
     step env port engine backend (RunTask i) s
       = Some (set_task i (TaskFailed e) s)) /\
  (forall i,
     loop_closed s = false -> shutting_down s = true ->
     tasks s !! i = Some TaskPending ->
     step env port engine backend (RunTask i) s
       = Some (set_task i TaskDone s)).
Proof.
  intros Hstart Hstop Hrun.
  destruct (reachable_more_invariants _ _ _ _ _ _ _ _ _ Hstart Hrun)
    as (Hinv & _).
  rewrite (count_in_shutdown_events (is_log_named "shutdown_complete")),
    (count_in_shutdown_events is_server_stop),
    (count_in_shutdown_events is_unload).
  - split; [| split; [| split; [| split]]].
    1-3: destruct (shutdown_log_inv_events _ _ _ Hinv)
      as [[-> _] | [[-> _] | [(_ & _ & Hst) | (_ & _ & Hst & _)]]];
      first [congruence | cbn; lia].
    + intros i Hopen Hi. unfold step, _shutdown.
      rewrite Hopen, Hi, Hstop. reflexivity.
    + intros i Hopen Hflag Hi. unfold step, _shutdown.
      rewrite Hopen, Hi, Hflag. reflexivity.
  - intros ev He. unfold is_shutdown_event. rewrite He.
    now rewrite orb_true_r.
  - intros ev He. unfold is_shutdown_event. now rewrite He.
  - intros ev He. unfold is_shutdown_event. rewrite He.
    now rewrite !orb_true_r.
Qed.

Lemma failed_stop_is_not_retried_witness :
  exists s,
    run failing_stop_env 50052 "kokoro" KokoroBackend
      [ResumeMain; Signal SIGTERM; RunTask 0; RunTask 0; Signal SIGTERM;
       RunTask 1]
      (init_loop
         (fst (serve_startup failing_stop_env 50052 "kokoro"
                 "/models/kokoro-v1" ∅)))
      = Some s /\
    count is_unload (trace s) = 0.
Proof.
  destruct (run failing_stop_env 50052 "kokoro" KokoroBackend
      [ResumeMain; Signal SIGTERM; RunTask 0; RunTask 0; Signal SIGTERM;
       RunTask 1]
      (init_loop
         (fst (serve_startup failing_stop_env 50052 "kokoro"
                 "/models/kokoro-v1" ∅)))) as [s |] eqn:Hrun.
  - exists s. split; [reflexivity |].
    exact (proj1
      (failed_stop_is_not_retried failing_stop_env 50052%Z "kokoro"
         "/models/kokoro-v1" ∅ KokoroBackend _ _ s
         (Exception "RuntimeError" "stuck") eq_refl eq_refl Hrun)).
  - vm_compute in Hrun. discriminate Hrun.
Defined.

(** X10. Each signal delivered creates exactly one shutdown task, and
    nothing else does; [shutdown_task] always names the task created
    last; and [server.stop] is never called unless a signal has been
    delivered: with no signal, the worker does nothing of the
    shutdown. *)
Theorem one_shutdown_task_per_signal (env : Env) (port : Z)
    (engine model_path : string) (engine_config : gmap string pyobject)
    (backend : TTSBackend) (tr0 : list event) (sched : list label)
    (s : loop_state) :
  serve_startup env port engine model_path engine_config
    = (tr0, Return backend) ->
  run env port engine backend sched (init_loop tr0) = Some s ->
  length (tasks s) = count_signals sched /\
  shutdown_task s
    = (if Nat.eqb (count_signals sched) 0 then None
       else Some (count_signals sched - 1)) /\
  (count is_server_stop (trace s) = 1 -> 0 < count_signals sched) /\
  (count_signals sched = 0 ->
   shutdown_events (trace s) = [] /\ shutting_down s = false).
Proof.
  intros Hstart Hrun.
  destruct (reachable_more_invariants _ _ _ _ _ _ _ _ _ Hstart Hrun)
    as (Hinv & _ & [Hlast Hflag] & Hlen).
  rewrite <- Hlen.
  assert (Hnone : shutting_down s = false ->
            shutdown_events (trace s) = []).
  { intros Hf.
    destruct (shutdown_log_inv_events _ _ _ Hinv)
      as [[H _] | [[_ H] | [(_ & H & _) | (_ & H & _)]]];
      [exact H | congruence | congruence | congruence]. }
  split; [reflexivity |]. split; [exact Hlast |]. split.
  - intros Hcount.
    destruct (shutting_down s) eqn:Hsd; [exact (Hflag eq_refl) |].
    rewrite (count_in_shutdown_events is_server_stop), (Hnone eq_refl)
      in Hcount.
    + discriminate Hcount.
    + intros ev He. unfold is_shutdown_event. now rewrite He.
  - intros Hzero.
    destruct (shutting_down s) eqn:Hsd.
    + specialize (Hflag eq_refl). lia.
    + split; [exact (Hnone eq_refl) | reflexivity].
Qed.

Lemma one_shutdown_task_per_signal_witness :
  exists s,
    run quiet_env 50052 "kokoro" KokoroBackend
      [Signal SIGINT; ResumeMain; Signal SIGTERM; RunTask 1; Signal SIGTERM]
      (init_loop
         (fst (serve_startup quiet_env 50052 "kokoro" "/models/kokoro-v1"
                 ∅)))
      = Some s /\
    length (tasks s) = 3.
Proof.
  destruct (run quiet_env 50052 "kokoro" KokoroBackend
      [Signal SIGINT; ResumeMain; Signal SIGTERM; RunTask 1; Signal SIGTERM]
      (init_loop
         (fst (serve_startup quiet_env 50052 "kokoro" "/models/kokoro-v1"
                 ∅)))) as [s |] eqn:Hrun.
  - exists s. split; [reflexivity |].
    exact (proj1
      (one_shutdown_task_per_signal quiet_env 50052%Z "kokoro"
         "/models/kokoro-v1" ∅ KokoroBackend _ _ s eq_refl Hrun)).
  - vm_compute in Hrun. discriminate Hrun.
Defined.

(** X11. [worker_started] is written at most once, exactly when
    [server.start()] has returned; when [server.start()] raises, the
    record is never written and [serve] ends with that exception. *)
Theorem worker_started_is_logged_once_after_start (env : Env) (port : Z)
    (engine model_path : string) (engine_config : gmap string pyobject)
    (backend : TTSBackend) (tr0 : list event) (sched : list label)
    (s : loop_state) :
  serve_startup env port engine model_path engine_config
    = (tr0, Return backend) ->
  run env port engine backend sched (init_loop tr0) = Some s ->
  count (is_log_named "worker_started") (trace s) <= 1 /\
  (count (is_log_named "worker_started") (trace s) = 1 <->
   serve_pc s = MainAwaitTermination \/ serve_pc s = MainReturned) /\
  (count (is_log_named "worker_started") (trace s) = 1 ->
   server_start env = Return tt) /\
  (forall e,
     server_start env = Raise e ->
     count (is_log_named "worker_started") (trace s) = 0) /\
  (forall e, serve_pc s = MainRaised e -> server_start env = Raise e).
Proof.
  intros Hstart Hrun.
  destruct (reachable_more_invariants _ _ _ _ _ _ _ _ _ Hstart Hrun)
    as (_ & Hinv & _).
  unfold started_inv in Hinv.
  destruct (serve_pc s) as [| | | e0]; [| destruct Hinv as [Hc Hs]..].
  - rewrite Hinv. split; [lia |]. split.
    + split; [discriminate | intros [H | H]; discriminate H].
    + split; [discriminate |]. split; [reflexivity | discriminate].
  - rewrite Hc. split; [lia |]. split; [tauto |].
    split; [intros _; exact Hs |].
    split; [intros e He; congruence | discriminate].
  - rewrite Hc. split; [lia |]. split; [tauto |].
    split; [intros _; exact Hs |].
    split; [intros e He; congruence | discriminate].
  - rewrite Hc. split; [lia |]. split.
    + split; [discriminate | intros [H | H]; discriminate H].
    + split; [discriminate |]. split; [reflexivity |].
      intros e [= <-]. exact Hs.
Qed.

Lemma worker_started_is_logged_once_after_start_witness :
  exists s,
    run quiet_env 50052 "kokoro" KokoroBackend
      [Signal SIGTERM; RunTask 0; ResumeMain]
      (init_loop
         (fst (serve_startup quiet_env 50052 "kokoro" "/models/kokoro-v1"
                 ∅)))
      = Some s /\
    count (is_log_named "worker_started") (trace s) <= 1.
Proof.
  destruct (run quiet_env 50052 "kokoro" KokoroBackend
      [Signal SIGTERM; RunTask 0; ResumeMain]
      (init_loop
         (fst (serve_startup quiet_env 50052 "kokoro" "/models/kokoro-v1"
                 ∅)))) as [s |] eqn:Hrun.
  - exists s. split; [reflexivity |].
    exact (proj1
      (worker_started_is_logged_once_after_start quiet_env 50052%Z "kokoro"
         "/models/kokoro-v1" ∅ KokoroBackend _ _ s eq_refl Hrun)).
  - vm_compute in Hrun. discriminate Hrun.
Defined.

(** X12. A healthy worker, one whose [server.start], [server.stop] and
    [backend.unload] all return, ends only after a signal and always with
    exit status 0: in every complete run of [main], [worker_started] was
    written once, [server.stop] was called exactly once, what the trace
    has of the shutdown is [shutdown_start] and [server.stop(5.0)],
    possibly followed by [backend.unload()], possibly followed by
    [shutdown_complete], and [main] returns.  One signal is enough for
    the whole sequence, when its task runs to its end before [serve]
    returns; [serve] does not wait for the task, so under another
    schedule the same signal ends the process with the backend not
    unloaded. *)
Theorem healthy_worker_exits_zero_after_a_signal (env : Env)
    (argv : list string) (args : Namespace)
    (engine_config : gmap string pyobject) (backend : TTSBackend)
    (tr0 : list event) :
  parse_args env argv = Return args ->
  json_loads env (ns_engine_config args) = Return engine_config ->
  serve_startup env (ns_port args) (ns_engine args) (ns_model_path args)
    engine_config = (tr0, Return backend) ->
  server_start env = Return tt ->
  server_stop env STOP_GRACE_PERIOD = Return tt ->
  backend_unload env backend = Return tt ->
  (forall sched tr r,
     main env argv sched = Some (tr, r) ->
     r = Return tt /\ exit_status r = 0%Z /\
     0 < count_signals sched /\
     count (is_log_named "worker_started") tr = 1 /\
     count is_server_stop tr = 1 /\
     (shutdown_events tr
        = [shutdown_start_record; ServerStop STOP_GRACE_PERIOD] \/
      shutdown_events tr
        = [shutdown_start_record; ServerStop STOP_GRACE_PERIOD;
           BackendUnload backend] \/
      shutdown_events tr
        = [shutdown_start_record; ServerStop STOP_GRACE_PERIOD;
           BackendUnload backend; Log Info "shutdown_complete" []])) /\
  (forall sig,
     main env argv
       [ResumeMain; Signal sig; RunTask 0; ServerStopped; RunTask 0;
        RunTask 0; ResumeMain; CancelTasks]
     = Some (ConfigureLogging ::
             tr0 ++
             [Log Info "worker_started"
                  [("port", VInt (ns_port args));
                   ("engine", VStr (ns_engine args))];
              ServerWaitForTermination;
              Log Info "shutdown_start" [("grace_period", VFloat 5.0%float)];
              ServerStop 5.0%float;
              BackendUnload backend;
              Log Info "shutdown_complete" []],
             Return tt)) /\
  (forall sig,
     main env argv
       [ResumeMain; Signal sig; RunTask 0; ServerStopped; ResumeMain;
        CancelTasks]
     = Some (ConfigureLogging ::
             tr0 ++
             [Log Info "worker_started"
                  [("port", VInt (ns_port args));
                   ("engine", VStr (ns_engine args))];
              ServerWaitForTermination;
              Log Info "shutdown_start" [("grace_period", VFloat 5.0%float)];
              ServerStop 5.0%float],
             Return tt)).
Proof.
  intros Hargs Hjson Hstartup Hstart Hstop Hunload.
  split; [| split].
  - intros sched tr r Hmain.
    unfold main in Hmain. rewrite Hargs, Hjson in Hmain.
    unfold asyncio_run_serve in Hmain. rewrite Hstartup in Hmain.
    destruct (run_to_close env (ns_port args) (ns_engine args) backend sched
                (init_loop tr0)) as [[tr' r'] |] eqn:Hdone;
      [| discriminate].
    destruct (run_to_close_run _ _ _ _ _ _ _ _ Hdone)
      as (s & Hrun & -> & Hr).
    destruct (reachable_invariants _ _ _ _ _ _ _ _ _ Hstartup Hrun)
      as (_ & [Hstopped Hret] & _).
    destruct (reachable_more_invariants _ _ _ _ _ _ _ _ _ Hstartup Hrun)
      as (Hlog & Hstarted & [_ Hflag] & Hlen).
    pose proof (reachable_failed_inv _ _ _ _ _ _ _ Hrun) as (Hfrom & _).
    destruct Hr as [[-> Hpc] | (e & -> & [Hpc | (i & Hi & _)])].
    + injection Hmain as <- <-.
      unfold started_inv in Hstarted. rewrite Hpc in Hstarted.
      pose proof (Hstopped (Hret Hpc)) as Hsd.
      split; [reflexivity |]. split; [reflexivity |].
      split; [rewrite <- Hlen; exact (Hflag Hsd) |].
      split; [exact (proj1 Hstarted) |].
      change (count is_server_stop (ConfigureLogging :: trace s))
        with (count is_server_stop (trace s)).
      change (shutdown_events (ConfigureLogging :: trace s))
        with (shutdown_events (trace s)).
      rewrite (count_in_shutdown_events is_server_stop);
        [| intros ev He; unfold is_shutdown_event; now rewrite He].
      destruct (shutdown_log_inv_events _ _ _ Hlog)
        as [[_ Hf] | [[-> _] | [(-> & _) | (-> & _)]]];
        [congruence | ..]; (split; [reflexivity | tauto]).
    + unfold started_inv in Hstarted. rewrite Hpc in Hstarted.
      destruct Hstarted as [_ Hraised]. congruence.
    + destruct (Hfrom i e Hi); congruence.
  - intros sig. unfold main. rewrite Hargs, Hjson. unfold asyncio_run_serve.
    rewrite Hstartup.
    unfold run_to_close, step, serve_resume, _shutdown.
    repeat (first [ rewrite Hstart | rewrite Hstop | rewrite Hunload
                  | progress cbn ]).
    rewrite <- !app_assoc. reflexivity.
  - intros sig. unfold main. rewrite Hargs, Hjson. unfold asyncio_run_serve.
    rewrite Hstartup.
    unfold run_to_close, step, serve_resume, _shutdown.
    repeat (first [ rewrite Hstart | rewrite Hstop | rewrite Hunload
                  | progress cbn ]).
    rewrite <- !app_assoc. reflexivity.
Qed.

Lemma healthy_worker_exits_zero_after_a_signal_witness :
  exists tr,
    main quiet_env []
      [ResumeMain; Signal SIGTERM; RunTask 0; ServerStopped; RunTask 0;
       RunTask 0; ResumeMain; CancelTasks]
    = Some (tr, Return tt).
Proof.
  eexists.
  exact (proj1 (proj2
    (healthy_worker_exits_zero_after_a_signal quiet_env [] sample_args ∅
       KokoroBackend _ eq_refl eq_refl eq_refl eq_refl eq_refl eq_refl))
    SIGTERM).
Defined.


